(** * The ISS location pipeline (mywork/lab4/iss.py)

    A shallow embedding of the extract / transform / load script and of
    the properties its specification states about it.

    Conventions of the embedding.
    - A parsed JSON document is a value of [json]; Python's [None] is
      [JNull].  JSON numbers with a fraction are not represented.
    - A Python exception is a value of [exn]; a computation that may
      raise has type [result A].
    - The file system is a finite map from path to file content.  A
      file that cannot be opened for writing (its directory is absent, the
      rights are missing) is one for which [open_error] gives the
      exception; a file that was opened is written in full.
    - The log is the list of records handed to [logging], oldest first.
    - What the script leaves to its libraries on values the pipeline is
      not meant to see (the text of a nested container in a CSV cell, the
      datetime of a cell that is no integer of the nanosecond range, the
      text of the audit dump) is kept abstract in the class [Externals],
      with what the system decides (which files can be opened). *)

From Stdlib Require Import ZArith Lia List Bool Ascii String DecimalString.
From stdpp Require Import base option strings gmap.
Import ListNotations.

Set Warnings "-register-all".

(** ** Python values and exceptions *)

Inductive json : Type :=
  | JNull
  | JBool (b : bool)
  | JInt (z : Z)
  | JStr (s : string)
  | JArr (items : list json)
  | JObj (members : list (string * json)).

(** The exceptions the script can meet, with the part of the class
    hierarchy that its [except] clauses look at. *)
Inductive exn : Type :=
  | KeyError (key : string)
  | TypeError
  | IndexError
  | ValueError
  | OutOfBoundsDatetime
  | HTTPError (status : Z)
  | ConnectionError
  | Timeout
  | JSONDecodeError
  | OSError.

Definition is_HTTPError (e : exn) : bool :=
  match e with HTTPError _ => true | _ => false end.

(** [requests.exceptions.RequestException] and its subclasses. *)
Definition is_RequestException (e : exn) : bool :=
  match e with
  | HTTPError _ | ConnectionError | Timeout | JSONDecodeError => true
  | _ => false
  end.

Inductive result (A : Type) : Type :=
  | Ok (a : A)
  | Raise (e : exn).
Arguments Ok {A} a.
Arguments Raise {A} e.

Definition bind {A B} (r : result A) (k : A -> result B) : result B :=
  match r with
  | Ok a => k a
  | Raise e => Raise e
  end.

Notation "'do' x <- r ; k" := (bind r (fun x => k))
  (at level 10, x name, r at level 100, k at level 200,
   format "'[v' 'do'  x  <-  r ; '/' k ']'").

Definition is_Ok {A} (r : result A) : bool :=
  match r with Ok _ => true | Raise _ => false end.

(** ** Subscripting: [value[key]] with a string key

    The members of a parsed object are listed in their order, each key
    once; the lookup takes the first member with the key. *)

Fixpoint dict_get (members : list (string * json)) (key : string) : option json :=
  match members with
  | [] => None
  | (k, v) :: rest => if String.eqb k key then Some v else dict_get rest key
  end.

(** A dict raises [KeyError] on an absent key; a list or a string
    refuses a string index and the other values are not subscriptable,
    both with [TypeError]. *)
Definition getitem (v : json) (key : string) : result json :=
  match v with
  | JObj members =>
      match dict_get members key with
      | Some x => Ok x
      | None => Raise (KeyError key)
      end
  | _ => Raise TypeError
  end.

Fixpoint get_path (v : json) (path : list string) : result json :=
  match path with
  | [] => Ok v
  | key :: rest => do x <- getitem v key; get_path x rest
  end.

(** ** Calendar time

    [pd.to_datetime(column, unit='s')] reads an integer cell as a count
    of seconds since 1970-01-01 00:00:00 and yields the datetime of the
    proleptic Gregorian calendar, without time zone. *)

Module Calendar.
Local Open Scope Z_scope.

Record datetime : Type := mkDatetime {
  year : Z; month : Z; day : Z;
  hour : Z; minute : Z; second : Z
}.

(** Year, month and day of a day number counted from 1970-01-01: the
    day is placed in its 400-year era (146097 days, starting on a
    1 March), then in its year and month of the era. *)
Definition civil_of_era_day (doe : Z) : Z * Z * Z :=
  let yoe := (doe - doe / 1460 + doe / 36524 - doe / 146096) / 365 in
  let doy := doe - (365 * yoe + yoe / 4 - yoe / 100) in
  let mp := (5 * doy + 2) / 153 in
  let d := doy - (153 * mp + 2) / 5 + 1 in
  let m := if mp <? 10 then mp + 3 else mp - 9 in
  (yoe + (if m <=? 2 then 1 else 0), m, d).

Definition civil_from_days (days : Z) : Z * Z * Z :=
  let z := days + 719468 in
  let era := z / 146097 in
  let '(y, m, d) := civil_of_era_day (z mod 146097) in
  (y + 400 * era, m, d).

Definition from_epoch (t : Z) : datetime :=
  let '(y, m, d) := civil_from_days (t / 86400) in
  let sod := t mod 86400 in
  {| year := y; month := m; day := d;
     hour := sod / 3600; minute := (sod mod 3600) / 60; second := sod mod 60 |}.

(** The calendar itself, stated independently of the conversion. *)
Definition is_leap (y : Z) : bool :=
  ((y mod 4 =? 0) && negb (y mod 100 =? 0)) || (y mod 400 =? 0).

Definition days_in_month (y m : Z) : Z :=
  if m =? 2 then (if is_leap y then 29 else 28)
  else if (m =? 4) || (m =? 6) || (m =? 9) || (m =? 11) then 30
  else 31.

Definition year_length (y : Z) : Z := if is_leap y then 366 else 365.

(** Leap years among the years 1 .. n. *)
Definition leap_years_upto (n : Z) : Z := n / 4 - n / 100 + n / 400.

(** Days from 1970-01-01 to the first of January of year [y]. *)
Definition days_to_year (y : Z) : Z :=
  365 * (y - 1970) + (leap_years_upto (y - 1) - leap_years_upto 1969).

(** Days from the first of January of year [y] to the first of month [m]. *)
Definition days_before_month (y m : Z) : Z :=
  fold_right Z.add 0 (map (days_in_month y) (map Z.of_nat (seq 1 (Z.to_nat (m - 1))))).

Definition days_of_civil (y m d : Z) : Z :=
  days_to_year y + days_before_month y m + (d - 1).

Definition epoch_of (dt : datetime) : Z :=
  days_of_civil (year dt) (month dt) (day dt) * 86400
  + hour dt * 3600 + minute dt * 60 + second dt.

Definition valid_date (y m d : Z) : bool :=
  (1 <=? m) && (m <=? 12) && (1 <=? d) && (d <=? days_in_month y m).

Definition valid_datetime (dt : datetime) : bool :=
  valid_date (year dt) (month dt) (day dt)
  && (0 <=? hour dt) && (hour dt <? 24)
  && (0 <=? minute dt) && (minute dt <? 60)
  && (0 <=? second dt) && (second dt <? 60).

(** The range of [datetime64[ns]]: the count of nanoseconds has to fit a
    signed 64-bit integer, whose least value stands for [NaT]. *)
Definition in_ns_range (t : Z) : bool :=
  (- (2 ^ 63) <? t * 1000000000) && (t * 1000000000 <? 2 ^ 63).

(** Days from the first of January to the first of month [m] in a year
    that is not a leap year. *)
Definition month_offset (m : Z) : Z :=
  nth (Z.to_nat (m - 1)) [0; 31; 59; 90; 120; 151; 181; 212; 243; 273; 304; 334] 0.

End Calendar.

(** ** Text utilities *)

Definition LF : ascii := ascii_of_nat 10.
Definition dquote : ascii := ascii_of_nat 34.
Definition nl : string := String LF EmptyString.

Definition Z_to_string (z : Z) : string := NilZero.string_of_int (Z.to_int z).

Fixpoint string_exists (p : ascii -> bool) (s : string) : bool :=
  match s with
  | EmptyString => false
  | String c rest => p c || string_exists p rest
  end.

Definition has_line_break (s : string) : bool := string_exists (Ascii.eqb LF) s.

(** The lines of a text: the pieces between line feeds, a final line
    counting whether or not a line feed ends it. *)
Fixpoint lines (s : string) : list string :=
  match s with
  | EmptyString => []
  | String c rest =>
      if Ascii.eqb c LF then EmptyString :: lines rest
      else match lines rest with
           | [] => [String c EmptyString]
           | l :: ls => String c l :: ls
           end
  end.

Definition ends_with_newline (s : string) : Prop := exists s', s = s' +:+ nl.

(** [s.replace(old, new)]: the occurrences of [old] are found from the
    left and do not overlap.  [skip] counts the characters of a found
    occurrence that are still to be dropped. *)
Fixpoint replace_from (old new : string) (skip : nat) (s : string) : string :=
  match s with
  | EmptyString => EmptyString
  | String c rest =>
      match skip with
      | S k => replace_from old new k rest
      | O =>
          if String.prefix old s
          then new +:+ replace_from old new (String.length old - 1) rest
          else String c (replace_from old new 0 rest)
      end
  end.

(** With an empty [old], Python puts [new] before every character and
    at the end. *)
Fixpoint insert_around (new s : string) : string :=
  match s with
  | EmptyString => new
  | String c rest => new +:+ String c (insert_around new rest)
  end.

Definition str_replace (s old new : string) : string :=
  match old with
  | EmptyString => insert_around new s
  | _ => replace_from old new 0 s
  end.

(** Whether [old] is found somewhere in [s]. *)
Fixpoint occurs (old s : string) : bool :=
  match s with
  | EmptyString => String.prefix old EmptyString
  | String _ rest => String.prefix old s || occurs old rest
  end.

(** ** What the libraries decide *)

Inductive stamp : Type :=
  | At (dt : Calendar.datetime)
  | NaT.

Class Externals : Type := {
  (** [pd.to_datetime(.., unit='s')] on a cell that is not an integer
      of the range of [datetime64[ns]]: the versions of the library
      differ on the integers outside it. *)
  to_datetime_other : json -> result stamp;
  (** [str(value)] of a list or a dict held in a cell. *)
  py_str : json -> string;
  (** [json.dumps(data, indent=2)]. *)
  json_dumps : json -> string;
  (** The exception that opening the path for writing raises, if it
      raises. *)
  open_error : string -> option exn
}.

(** ** The script *)

Definition URL : string := "http://api.open-notify.org/iss-now.json".

Inductive log_record : Type :=
  | LogInfo (msg : string)
  | LogError (msg : string) (e : option exn).

Abbreviation files := (gmap string string).

(** The one-row table that [transform] builds: the columns are fixed,
    the frame is its list of rows. *)
Record row : Type := mkRow {
  timestamp : stamp;
  latitude : json;
  longitude : json;
  message : json
}.

Definition DataFrame : Type := list row.

(** The answer of [requests.get(URL)]: [json_body] is what
    [response.json()] gives. *)
Record response : Type := mkResponse {
  status_code : Z;
  json_body : result json
}.

Definition raise_for_status (r : response) : result unit :=
  if (400 <=? status_code r)%Z && (status_code r <? 600)%Z
  then Raise (HTTPError (status_code r))
  else Ok tt.

Inductive outcome : Type :=
  | Finished
  | Exit (code : Z)
  | Uncaught (e : exn).

Definition exit_status (o : outcome) : Z :=
  match o with
  | Finished => 0
  | Exit code => code
  | Uncaught _ => 1
  end.

Section Script.
Context `{Externals}.

(** The record of the [except] clause that catches [e]. *)
Definition caught (e : exn) : log_record :=
  let msg :=
    if is_HTTPError e then "HTTP error occurred: "
    else if is_RequestException e then "A request error occurred: "
    else "An unexpected error occurred: " in
  LogError msg (Some e).

(** [data] is bound before the audit file is opened, inside the [try]:
    when the file cannot be opened, the exception is caught and logged
    like the others, and the data is returned all the same. *)
Definition extract (json_file : string) (net : result response) (fs : files)
  : json * files * list log_record :=
  let started := LogInfo ("Getting data from " +:+ URL) in
  let attempt :=
    do response <- net;
    do _ <- raise_for_status response;
    json_body response in
  match attempt with
  | Ok data =>
      match open_error json_file with
      | None =>
          (data, <[json_file := json_dumps data]> fs,
           [started; LogInfo ("Extracted raw data and saved to " +:+ json_file)])
      | Some e => (data, fs, [started; caught e])
      end
  | Raise e => (JNull, fs, [started; caught e])
  end.

Definition to_datetime (v : json) : result stamp :=
  match v with
  | JInt t =>
      if Calendar.in_ns_range t then Ok (At (Calendar.from_epoch t))
      else to_datetime_other v
  | _ => to_datetime_other v
  end.

Definition transform_started : log_record := LogInfo "Cleaning and organizing data...".

(** What [transform] returns or raises.  Its first statement hands
    [transform_started] to the log; [main] files that record when it
    calls [transform]. *)
Definition transform (raw_data : json) : result DataFrame :=
  do ts <- getitem raw_data "timestamp";
  do pos <- getitem raw_data "iss_position";
  do lat <- getitem pos "latitude";
  do pos' <- getitem raw_data "iss_position";
  do lon <- getitem pos' "longitude";
  do msg <- getitem raw_data "message";
  do t <- to_datetime ts;
  Ok [ {| timestamp := t; latitude := lat; longitude := lon; message := msg |} ].

(** *** [DataFrame.to_csv]

    The rows go through [csv.writer] with its default dialect: a field
    is put between double quotes, with its own double quotes doubled,
    when it holds the delimiter, the quote character or a character of
    the line terminator. *)

Definition needs_quote (c : ascii) : bool :=
  Ascii.eqb c "," || Ascii.eqb c dquote || Ascii.eqb c LF.

Fixpoint double_quotes (s : string) : string :=
  match s with
  | EmptyString => EmptyString
  | String c rest =>
      if Ascii.eqb c dquote then String dquote (String dquote (double_quotes rest))
      else String c (double_quotes rest)
  end.

Definition csv_field (s : string) : string :=
  if string_exists needs_quote s
  then String dquote (double_quotes s +:+ String dquote EmptyString)
  else s.

Definition pad2 (z : Z) : string :=
  if (z <? 10)%Z then "0" +:+ Z_to_string z else Z_to_string z.

(** The year is written with four digits at least. *)
Definition pad4 (z : Z) : string :=
  if (z <? 0)%Z then Z_to_string z
  else if (z <? 10)%Z then "000" +:+ Z_to_string z
  else if (z <? 100)%Z then "00" +:+ Z_to_string z
  else if (z <? 1000)%Z then "0" +:+ Z_to_string z
  else Z_to_string z.

Definition date_text (dt : Calendar.datetime) : string :=
  pad4 (Calendar.year dt) +:+ "-" +:+ pad2 (Calendar.month dt)
  +:+ "-" +:+ pad2 (Calendar.day dt).

Definition time_text (dt : Calendar.datetime) : string :=
  pad2 (Calendar.hour dt) +:+ ":" +:+ pad2 (Calendar.minute dt)
  +:+ ":" +:+ pad2 (Calendar.second dt).

Definition is_midnight (dt : Calendar.datetime) : bool :=
  (Calendar.hour dt =? 0)%Z && (Calendar.minute dt =? 0)%Z && (Calendar.second dt =? 0)%Z.

(** A datetime column whose values all fall on midnight is written as
    dates only. *)
Definition dates_only (df : DataFrame) : bool :=
  forallb (fun r => match timestamp r with At dt => is_midnight dt | NaT => true end) df.

(** A missing value is written as the empty text. *)
Definition stamp_text (short : bool) (t : stamp) : string :=
  match t with
  | NaT => EmptyString
  | At dt => if short then date_text dt else date_text dt +:+ " " +:+ time_text dt
  end.

Definition cell_text (v : json) : string :=
  match v with
  | JStr s => s
  | JNull => EmptyString
  | JBool b => if b then "True" else "False"
  | JInt z => Z_to_string z
  | JArr _ | JObj _ => py_str v
  end.

(** A row of the file, without its line terminator. *)
Definition row_text (short : bool) (r : row) : string :=
  csv_field (stamp_text short (timestamp r)) +:+ ","
  +:+ csv_field (cell_text (latitude r)) +:+ ","
  +:+ csv_field (cell_text (longitude r)) +:+ ","
  +:+ csv_field (cell_text (message r)).

Definition header_text : string := "timestamp,latitude,longitude,message".

Definition csv_text (df : DataFrame) (header : bool) : string :=
  (if header then header_text +:+ nl else EmptyString)
  +:+ fold_right (fun r acc => row_text (dates_only df) r +:+ nl +:+ acc) EmptyString df.

(** [df.to_csv(path, mode=.., header=.., index=False)]: mode ['w']
    replaces the content, mode ['a'] writes after it. *)
Definition to_csv (df : DataFrame) (path : string) (append header : bool) (fs : files) : files :=
  let old := if append then default EmptyString (fs !! path) else EmptyString in
  <[path := old +:+ csv_text df header]> fs.

Definition os_path_exists (path : string) (fs : files) : bool :=
  match fs !! path with Some _ => true | None => false end.

(** [load] raises what [to_csv] raises when it cannot open the file,
    before anything is written or logged. *)
Definition load_raises (output_name : string) : option exn := open_error output_name.

(** The call of [load] that returns. *)
Definition load (data_rec : DataFrame) (output_name : string) (fs : files)
  : files * list log_record :=
  let fs' :=
    if os_path_exists output_name fs
    then to_csv data_rec output_name true false fs
    else to_csv data_rec output_name false true fs in
  (fs', [LogInfo ("Saved cleaned data to " +:+ output_name)]).

Definition json_file_of (OUTPUT : string) : string :=
  str_replace OUTPUT ".csv" EmptyString +:+ ".json".

(** [sys.argv] is [prog :: args]. *)
Definition main (prog : string) (args : list string) (net : result response) (fs : files)
  : outcome * files * list log_record :=
  match args with
  | [] =>
      (Exit 1, fs, [LogError ("Usage: python " +:+ prog +:+ " <output_file>") None])
  | OUTPUT :: _ =>
      let json_file := json_file_of OUTPUT in
      let '(raw, fs1, log1) := extract json_file net fs in
      match raw with
      | JNull =>
          (Exit 1, fs1, log1 ++ [LogError "Extraction failed. Exiting program." None])
      | _ =>
          match transform raw with
          | Raise e => (Uncaught e, fs1, log1 ++ [transform_started])
          | Ok clean_data =>
              match load_raises OUTPUT with
              | Some e => (Uncaught e, fs1, log1 ++ [transform_started])
              | None =>
                  let '(fs2, log2) := load clean_data OUTPUT fs1 in
                  (Finished, fs2, log1 ++ [transform_started] ++ log2)
              end
          end
      end
  end.

(** The Loader called once per frame, in order. *)
Definition load_all (frames : list DataFrame) (output_name : string) (fs : files) : files :=
  fold_left (fun acc df => fst (load df output_name acc)) frames fs.

End Script.

(** An instance to run the script on concrete inputs: every file can be
    opened. *)
Definition sample_externals : Externals := {|
  to_datetime_other := fun _ => Raise TypeError;
  py_str := fun _ => "[...]";
  json_dumps := fun _ => "{...}";
  open_error := fun _ => None
|}.

(** The same where nothing can be opened under [archive/], a directory
    that is absent. *)
Definition no_archive_externals : Externals := {|
  to_datetime_other := fun _ => Raise TypeError;
  py_str := fun _ => "[...]";
  json_dumps := fun _ => "{...}";
  open_error := fun p => if String.prefix "archive/" p then Some OSError else None
|}.

(** ** Vocabulary of the specification *)

(** The four key paths of a RawResponse that the Transformer reads. *)
Definition required_paths : list (list string) :=
  [ ["timestamp"]; ["iss_position"; "latitude"];
    ["iss_position"; "longitude"]; ["message"] ].

(** A well-formed RawResponse: the four fields are present, the
    timestamp is an integer count of epoch seconds that a datetime can
    hold, the coordinates and the message are strings. *)
Definition well_formed (raw : json) (t : Z) (lat lon msg : string) : Prop :=
  get_path raw ["timestamp"] = Ok (JInt t)
  /\ Calendar.in_ns_range t = true
  /\ get_path raw ["iss_position"; "latitude"] = Ok (JStr lat)
  /\ get_path raw ["iss_position"; "longitude"] = Ok (JStr lon)
  /\ get_path raw ["message"] = Ok (JStr msg).

(** The failures of an extraction: the request does not come back, the
    status is one that [raise_for_status] rejects, or the body is not
    JSON. *)
Definition extraction_fails (net : result response) : bool :=
  match net with
  | Raise _ => true
  | Ok r => negb (is_Ok (raise_for_status r)) || negb (is_Ok (json_body r))
  end.

(** The audit path in the words of the specification: the path with its
    extension replaced by [.json].  The extension is the one of
    [os.path.splitext]: it starts at the last dot of the last component
    of the path, a component made of dots up to there having none. *)
Definition is_slash (c : ascii) : bool := Ascii.eqb c "/".
Definition is_dot (c : ascii) : bool := Ascii.eqb c ".".

Fixpoint takeWhile {A} (p : A -> bool) (l : list A) : list A :=
  match l with
  | [] => []
  | x :: rest => if p x then x :: takeWhile p rest else []
  end.

(** On the reversed path: what is left of it once the extension is cut
    off, if there is an extension. *)
Fixpoint root_rev (r : list ascii) : option (list ascii) :=
  match r with
  | [] => None
  | c :: rest =>
      if is_slash c then None
      else if is_dot c then
        if existsb (fun x => negb (is_dot x)) (takeWhile (fun x => negb (is_slash x)) rest)
        then Some rest else None
      else root_rev rest
  end.

Definition splitext_root (p : string) : string :=
  match root_rev (rev (list_ascii_of_string p)) with
  | Some r => string_of_list_ascii (rev r)
  | None => p
  end.

Definition spec_audit_path (OUTPUT : string) : string := splitext_root OUTPUT +:+ ".json".

(** ** Sample data *)

(** The answer of the end-to-end scenario of the specification. *)
Definition scenario_raw : json :=
  JObj [ ("timestamp", JInt 1609459200);
         ("iss_position", JObj [("latitude", JStr "10.00"); ("longitude", JStr "20.00")]);
         ("message", JStr "success") ].

(** The same answer with the coordinates under [position]. *)
Definition position_raw : json :=
  JObj [ ("timestamp", JInt 1609459200);
         ("position", JObj [("latitude", JStr "10.00"); ("longitude", JStr "20.00")]);
         ("message", JStr "success") ].

(** The scenario with a key more and the members in another order. *)
Definition noisy_raw : json :=
  JObj [ ("message", JStr "success");
         ("crew", JArr [JStr "a"; JStr "b"]);
         ("iss_position", JObj [("longitude", JStr "20.00"); ("altitude", JInt 408);
                                ("latitude", JStr "10.00")]);
         ("timestamp", JInt 1609459200) ].

Definition scenario_row : row :=
  {| timestamp := At (Calendar.mkDatetime 2021 1 1 0 0 0);
     latitude := JStr "10.00"; longitude := JStr "20.00"; message := JStr "success" |}.

(** A record whose message holds a line break. *)
Definition two_line_row : row :=
  {| timestamp := At (Calendar.mkDatetime 2021 1 1 0 0 1);
     latitude := JStr "10.00"; longitude := JStr "20.00";
     message := JStr ("up" +:+ nl +:+ "down") |}.

(** The line that the one record of a frame makes in the file, and the
    frames and records that stay on one line. *)
Definition record_line `{Externals} (r : row) : string := row_text (dates_only [r]) r.

Definition single_line_row `{Externals} (r : row) : bool :=
  negb (has_line_break (cell_text (latitude r)))
  && negb (has_line_break (cell_text (longitude r)))
  && negb (has_line_break (cell_text (message r))).

(** The text that the records make in the file, one frame of one record
    after the other. *)
Definition data_text `{Externals} (recs : list row) : string :=
  fold_right (fun r acc => record_line r +:+ nl +:+ acc) EmptyString recs.

Definition frames_of (recs : list row) : list DataFrame := map (fun r => [r]) recs.

(** A file that holds no text yet or whose last line is ended. *)
Definition terminated (s : string) : Prop := s = EmptyString \/ ends_with_newline s.

(** The three parts of what a stage or a run leaves behind. *)
Definition result_of {A} (r : A * files * list log_record) : A := fst (fst r).
Definition files_of {A} (r : A * files * list log_record) : files := snd (fst r).
Definition log_of {A} (r : A * files * list log_record) : list log_record := snd r.

(** ** Runs of the script, one after the other *)

(** What the three guarded steps of [extract] yield: the parsed body, or
    the exception of the first step that raises. *)
Definition received (net : result response) : result json :=
  do response <- net;
  do _ <- raise_for_status response;
  json_body response.

(** The files once [extract] has tried to write the audit file. *)
Definition after_audit `{Externals} (json_file : string) (data : json) (fs : files)
  : files :=
  match open_error json_file with
  | None => <[json_file := json_dumps data]> fs
  | Some _ => fs
  end.

(** The record that a run with the answer [net] adds to the output file,
    if it adds one: the Extractor has to return data, the Transformer a
    frame, and the Loader has to return. *)
Definition written_row `{Externals} (OUTPUT : string) (net : result response)
  : option row :=
  match received net with
  | Ok JNull | Raise _ => None
  | Ok raw =>
      match transform raw, load_raises OUTPUT with
      | Ok [r], None => Some r
      | _, _ => None
      end
  end.

(** The files after the script has run once for each answer of [nets],
    in order, with the same command line. *)
Definition main_runs `{Externals} (prog : string) (args : list string)
    (nets : list (result response)) (fs : files) : files :=
  fold_left (fun acc net => files_of (main prog args net acc)) nets fs.

(** * The event summary (mywork/lab3/github-events.py)

    The script has no function: it runs from top to bottom, prints to
    the standard output and has no handler, so that an exception ends
    it.  What it prints is the list of the texts handed to [print]. *)

Module GithubEvents.

(** [f'https://api.github.com/users/{GHUSER}/events']: an environment
    variable that is not set gives [None], which is formatted as such. *)
Definition url (GHUSER : option string) : string :=
  "https://api.github.com/users/" +:+ default "None" GHUSER +:+ "/events".

(** [r[:5]].  A list gives its first five items and a string its first
    five characters; a dict takes the slice for a key, which it cannot
    hash before Python 3.12 and does not hold from then on; the other
    values are not subscriptable. *)
Definition first_five (hashable_slices : bool) (r : json) : result (list json) :=
  match r with
  | JArr items => Ok (take 5 items)
  | JStr s =>
      Ok (map (fun c => JStr (String c EmptyString)) (take 5 (list_ascii_of_string s)))
  | JObj _ =>
      Raise (if hashable_slices then KeyError "slice(None, 5, None)" else TypeError)
  | _ => Raise TypeError
  end.

(** [a + b] where one of the two is known to be a string: the other has
    to be a string too. *)
Definition concat_str (a b : json) : result string :=
  match a, b with
  | JStr x, JStr y => Ok (x +:+ y)
  | _, _ => Raise TypeError
  end.

(** [x['type'] + ' :: ' + x['repo']['name']]: the first sum is made
    before the repository is looked up. *)
Definition event_line (x : json) : result string :=
  do type <- getitem x "type";
  do head <- concat_str type (JStr " :: ");
  do repo <- getitem x "repo";
  do name <- getitem repo "name";
  concat_str (JStr head) name.

(** The loop: one line per event, up to the first event that raises. *)
Fixpoint print_events (xs : list json) : list string * outcome :=
  match xs with
  | [] => ([], Finished)
  | x :: rest =>
      match event_line x with
      | Raise e => ([], Uncaught e)
      | Ok line => let '(out, o) := print_events rest in (line :: out, o)
      end
  end.

(** The script.  [net] is the answer of [requests.get] to a url, its
    [json_body] what [json.loads] makes of the text of the answer; the
    status of the answer is not looked at. *)
Definition github_events (hashable_slices : bool) (GHUSER : option string)
    (net : string -> result response) : list string * outcome :=
  let u := url GHUSER in
  let events :=
    do answer <- net u;
    do r <- json_body answer;
    first_five hashable_slices r in
  match events with
  | Raise e => ([u], Uncaught e)
  | Ok xs => let '(out, o) := print_events xs in (u :: out, o)
  end.

(** An event as the script needs it: a type and, under [repo], a name,
    both strings. *)
Definition event_of (x : json) (type name : string) : Prop :=
  getitem x "type" = Ok (JStr type) /\ get_path x ["repo"; "name"] = Ok (JStr name).

Definition summary (e : string * string) : string := fst e +:+ " :: " +:+ snd e.

Definition push_event : json :=
  JObj [ ("id", JStr "1"); ("type", JStr "PushEvent");
         ("repo", JObj [("id", JInt 7); ("name", JStr "octocat/hello")]) ].

Definition nameless_event : json :=
  JObj [ ("type", JStr "WatchEvent"); ("repo", JObj [("id", JInt 7)]) ].

End GithubEvents.

(** * Properties *)

(** ** The calendar conversion *)

Module CalendarFacts.
Import Calendar.
Local Open Scope Z_scope.

Ltac div_lia := Z.to_euclidean_division_equations; lia.

Lemma is_leap_true y :
  is_leap y = true <-> (y mod 4 = 0 /\ y mod 100 <> 0) \/ y mod 400 = 0.
Proof.
  unfold is_leap.
  rewrite orb_true_iff, andb_true_iff, negb_true_iff, Z.eqb_neq, !Z.eqb_eq.
  tauto.
Qed.

Lemma is_leap_cases y :
  if is_leap y
  then (y mod 4 = 0 /\ y mod 100 <> 0) \/ y mod 400 = 0
  else ~ ((y mod 4 = 0 /\ y mod 100 <> 0) \/ y mod 400 = 0).
Proof.
  destruct (is_leap y) eqn:E; [apply is_leap_true, E|].
  rewrite <- is_leap_true. congruence.
Qed.

Lemma leap_years_step y :
  leap_years_upto y = leap_years_upto (y - 1) + (if is_leap y then 1 else 0).
Proof.
  pose proof (is_leap_cases y) as Hl. unfold leap_years_upto.
  destruct (is_leap y); div_lia.
Qed.

Lemma leap_years_shift y e :
  leap_years_upto (y + 400 * e) = leap_years_upto y + 97 * e.
Proof. unfold leap_years_upto. div_lia. Qed.

Lemma is_leap_shift y e : is_leap (y + 400 * e) = is_leap y.
Proof.
  pose proof (is_leap_cases y) as H1. pose proof (is_leap_cases (y + 400 * e)) as H2.
  destruct (is_leap y), (is_leap (y + 400 * e)); try reflexivity; exfalso; div_lia.
Qed.

Lemma leap_years_small yoe :
  0 <= yoe <= 399 -> yoe / 4 - yoe / 100 = leap_years_upto yoe.
Proof. intros Hy. unfold leap_years_upto. rewrite (Z.div_small yoe 400) by lia. lia. Qed.

(** A year lasts 365 days, and one more when it is a leap year. *)
Lemma days_to_year_step y :
  days_to_year (y + 1) = days_to_year y + (if is_leap y then 366 else 365).
Proof.
  unfold days_to_year. replace (y + 1 - 1) with y by lia.
  rewrite (leap_years_step y). destruct (is_leap y); lia.
Qed.

Lemma days_before_month_table y m :
  1 <= m <= 12 ->
  days_before_month y m
  = month_offset m + (if (2 <? m) && is_leap y then 1 else 0).
Proof.
  intros Hm.
  assert (Hcases : m = 1 \/ m = 2 \/ m = 3 \/ m = 4 \/ m = 5 \/ m = 6 \/ m = 7
                   \/ m = 8 \/ m = 9 \/ m = 10 \/ m = 11 \/ m = 12) by lia.
  unfold days_before_month, month_offset, days_in_month.
  repeat (destruct Hcases as [-> | Hcases]); try subst m;
    simpl; destruct (is_leap y); reflexivity.
Qed.

Lemma year_of_era_day doe :
  0 <= doe < 146097 ->
  let yoe := (doe - doe / 1460 + doe / 36524 - doe / 146096) / 365 in
  let doy := doe - (365 * yoe + yoe / 4 - yoe / 100) in
  0 <= yoe <= 399 /\ 0 <= doy <= 365
  /\ (doy = 365 -> yoe mod 4 = 3 /\ (yoe mod 100 <> 99 \/ yoe = 399)).
Proof. intros Hd yoe doy. subst yoe doy. div_lia. Qed.

Lemma leap_after_long_year yoe :
  yoe mod 4 = 3 /\ (yoe mod 100 <> 99 \/ yoe = 399) -> is_leap (yoe + 1) = true.
Proof. intros H. apply is_leap_true. div_lia. Qed.

(** Month and day within a year that starts on 1 March. *)
Lemma month_of_year_day doy :
  0 <= doy <= 365 ->
  let mp := (5 * doy + 2) / 153 in
  let d := doy - (153 * mp + 2) / 5 + 1 in
  let m := if mp <? 10 then mp + 3 else mp - 9 in
  1 <= m <= 12 /\ 1 <= d
  /\ doy = month_offset m + (d - 1) + (if m <=? 2 then 306 else -59)
  /\ d <= (if m =? 2 then (if doy =? 365 then 29 else 28)
           else if (m =? 4) || (m =? 6) || (m =? 9) || (m =? 11) then 30 else 31).
Proof.
  intros Hd mp d m.
  assert (Hcases : (mp = 0 /\ m = 3) \/ (mp = 1 /\ m = 4) \/ (mp = 2 /\ m = 5)
                   \/ (mp = 3 /\ m = 6) \/ (mp = 4 /\ m = 7) \/ (mp = 5 /\ m = 8)
                   \/ (mp = 6 /\ m = 9) \/ (mp = 7 /\ m = 10) \/ (mp = 8 /\ m = 11)
                   \/ (mp = 9 /\ m = 12) \/ (mp = 10 /\ m = 1) \/ (mp = 11 /\ m = 2)).
  { assert (0 <= mp <= 11) by (subst mp; div_lia).
    subst m. destruct (Z.ltb_spec mp 10); lia. }
  assert (Hmp : mp = (5 * doy + 2) / 153) by reflexivity.
  assert (Hdd : d = doy - (153 * mp + 2) / 5 + 1) by reflexivity.
  clearbody mp d m.
  repeat (destruct Hcases as [[Hk Hmk] | Hcases]); try destruct Hcases as [Hk Hmk];
    subst mp m;
    match goal with
    | |- context [month_offset ?k] =>
        let v := eval vm_compute in (month_offset k) in change (month_offset k) with v
    end;
    cbn -[Z.div Z.mul Z.add Z.sub] in *;
    try (destruct (Z.eqb_spec doy 365)); div_lia.
Qed.

Lemma civil_from_days_correct days :
  let '(y, m, d) := civil_from_days days in
  valid_date y m d = true /\ days_of_civil y m d = days.
Proof.
  unfold civil_from_days, civil_of_era_day. cbv zeta iota beta.
  set (z := days + 719468).
  set (era := z / 146097).
  set (doe := z mod 146097).
  assert (Hdoe : 0 <= doe < 146097) by (apply Z.mod_pos_bound; lia).
  assert (Hz : z = 146097 * era + doe) by (apply Z.div_mod; lia).
  destruct (year_of_era_day doe Hdoe) as (Hyoe & Hdoy & Hlast).
  set (yoe := (doe - doe / 1460 + doe / 36524 - doe / 146096) / 365) in *.
  pose proof (leap_years_small yoe Hyoe) as Hsmall.
  set (doy := doe - (365 * yoe + yoe / 4 - yoe / 100)) in *.
  assert (Hdoydef : doe = 365 * yoe + leap_years_upto yoe + doy) by (subst doy; lia).
  destruct (month_of_year_day doy Hdoy) as (Hm & Hd1 & Hsplit & Hlen).
  set (mp := (5 * doy + 2) / 153) in *.
  set (d := doy - (153 * mp + 2) / 5 + 1) in *.
  set (m := if mp <? 10 then mp + 3 else mp - 9) in *.
  clearbody d m doy. clear mp. clearbody yoe doe era.
  unfold valid_date, days_of_civil.
  rewrite days_before_month_table by exact Hm.
  unfold days_to_year, days_in_month.
  change (leap_years_upto 1969) with 477.
  destruct (Z.leb_spec m 2) as [Hjan | Hmar].
  - replace (yoe + 1 + 400 * era - 1) with (yoe + 400 * era) by lia.
    rewrite leap_years_shift, is_leap_shift.
    replace (2 <? m) with false by (symmetry; apply Z.ltb_ge; lia).
    split; [|cbn [andb]; lia].
    rewrite !andb_true_iff, !Z.leb_le. repeat split; try lia.
    destruct (Z.eqb_spec m 2) as [Hfeb | Hnf].
    + destruct (Z.eqb_spec doy 365) as [Hlong | Hshort].
      * rewrite (leap_after_long_year yoe (Hlast Hlong)). lia.
      * destruct (is_leap (yoe + 1)); lia.
    + exact Hlen.
  - replace (yoe + 0 + 400 * era - 1) with (yoe - 1 + 400 * era) by lia.
    replace (yoe + 0 + 400 * era) with (yoe + 400 * era) by lia.
    rewrite leap_years_shift, is_leap_shift.
    replace (2 <? m) with true by (symmetry; apply Z.ltb_lt; lia).
    pose proof (leap_years_step yoe) as Hstep.
    replace (m =? 2) with false in * by (symmetry; apply Z.eqb_neq; lia).
    split.
    + rewrite !andb_true_iff, !Z.leb_le. repeat split; try lia.
    + cbn [andb]. destruct (is_leap yoe); lia.
Qed.

Lemma from_epoch_correct t :
  valid_datetime (from_epoch t) = true /\ epoch_of (from_epoch t) = t.
Proof.
  unfold from_epoch.
  pose proof (civil_from_days_correct (t / 86400)) as Hc.
  destruct (civil_from_days (t / 86400)) as [[y m] d].
  destruct Hc as [Hvalid Hdays].
  unfold valid_datetime, epoch_of. cbn [year month day hour minute second].
  rewrite Hvalid, Hdays. split.
  - rewrite !andb_true_iff, !Z.leb_le, !Z.ltb_lt. repeat split; div_lia.
  - div_lia.
Qed.

(** No two valid datetimes are the same number of seconds away from
    1970-01-01 00:00:00. *)

Lemma days_to_year_mono a b : a <= b -> days_to_year a + 365 * (b - a) - 3 <= days_to_year b.
Proof. intros Hab. unfold days_to_year, leap_years_upto. div_lia. Qed.

Lemma days_to_year_next a b :
  a < b -> days_to_year a + year_length a <= days_to_year b.
Proof.
  intros Hab. pose proof (days_to_year_step a) as Hs. fold (year_length a) in Hs.
  pose proof (days_to_year_mono (a + 1) b ltac:(lia)) as Hm.
  destruct (Z.eq_dec b (a + 1)) as [->|Hne]; [lia|]. lia.
Qed.

Lemma valid_date_bounds y m d :
  valid_date y m d = true ->
  1 <= m <= 12 /\ 1 <= d <= days_in_month y m.
Proof. unfold valid_date. rewrite !andb_true_iff, !Z.leb_le. lia. Qed.

Lemma month_cases m :
  1 <= m <= 12 ->
  m = 1 \/ m = 2 \/ m = 3 \/ m = 4 \/ m = 5 \/ m = 6 \/ m = 7
  \/ m = 8 \/ m = 9 \/ m = 10 \/ m = 11 \/ m = 12.
Proof. lia. Qed.

(** The months of a year follow one another without gap. *)
Lemma days_before_month_next y m :
  1 <= m <= 12 ->
  days_before_month y m + days_in_month y m
  = if m =? 12 then year_length y else days_before_month y (m + 1).
Proof.
  intros Hm. destruct (month_cases m Hm) as [->|[->|[->|[->|[->|[->|[->|[->|[->|[->|[->| ->]]]]]]]]]]];
    unfold days_before_month, days_in_month, year_length; cbn; destruct (is_leap y); reflexivity.
Qed.

Lemma days_before_month_mono y m1 m2 :
  1 <= m1 -> m1 < m2 -> m2 <= 12 ->
  days_before_month y m1 + days_in_month y m1 <= days_before_month y m2.
Proof.
  intros H1 H12 H2.
  destruct (month_cases m1 ltac:(lia)) as [->|[->|[->|[->|[->|[->|[->|[->|[->|[->|[->| ->]]]]]]]]]]];
    destruct (month_cases m2 ltac:(lia)) as [->|[->|[->|[->|[->|[->|[->|[->|[->|[->|[->| ->]]]]]]]]]]];
    try lia; unfold days_before_month, days_in_month; simpl; destruct (is_leap y); lia.
Qed.

Lemma day_of_year_bounds y m d :
  valid_date y m d = true ->
  0 <= days_before_month y m + (d - 1) < year_length y.
Proof.
  intros Hv. apply valid_date_bounds in Hv as [Hm Hd].
  pose proof (days_before_month_next y m Hm) as Hn.
  assert (0 <= days_before_month y m).
  { destruct (month_cases m Hm) as [->|[->|[->|[->|[->|[->|[->|[->|[->|[->|[->| ->]]]]]]]]]]];
      unfold days_before_month, days_in_month; simpl; destruct (is_leap y); lia. }
  destruct (Z.eqb_spec m 12) as [->|Hne]; [lia|].
  assert (days_before_month y (m + 1) <= year_length y).
  { pose proof (days_before_month_next y 12 ltac:(lia)) as H12. cbn [Z.eqb Pos.eqb] in H12.
    destruct (Z.eq_dec (m + 1) 12) as [->|Hne2].
    - unfold days_in_month in H12. cbn in H12. lia.
    - pose proof (days_before_month_mono y (m + 1) 12 ltac:(lia) ltac:(lia) ltac:(lia)).
      assert (0 <= days_in_month y (m + 1)) by (unfold days_in_month;
        destruct (m + 1 =? 2), (is_leap y), ((m + 1 =? 4) || (m + 1 =? 6) || (m + 1 =? 9) || (m + 1 =? 11)); lia).
      unfold days_in_month in H12. cbn in H12. lia. }
  lia.
Qed.

Lemma days_of_civil_inj y1 m1 d1 y2 m2 d2 :
  valid_date y1 m1 d1 = true -> valid_date y2 m2 d2 = true ->
  days_of_civil y1 m1 d1 = days_of_civil y2 m2 d2 ->
  y1 = y2 /\ m1 = m2 /\ d1 = d2.
Proof.
  intros Hv1 Hv2 Heq. unfold days_of_civil in Heq.
  pose proof (day_of_year_bounds _ _ _ Hv1) as Hb1.
  pose proof (day_of_year_bounds _ _ _ Hv2) as Hb2.
  assert (Hy : y1 = y2).
  { destruct (Z.lt_trichotomy y1 y2) as [Hlt|[Heqy|Hgt]]; [|exact Heqy|].
    - pose proof (days_to_year_next y1 y2 Hlt). lia.
    - pose proof (days_to_year_next y2 y1 ltac:(lia)). lia. }
  subst y2. split; [reflexivity|].
  apply valid_date_bounds in Hv1 as [Hm1 Hd1], Hv2 as [Hm2 Hd2].
  assert (Hm : m1 = m2).
  { destruct (Z.lt_trichotomy m1 m2) as [Hlt|[Heqm|Hgt]]; [|exact Heqm|].
    - pose proof (days_before_month_mono y1 m1 m2 ltac:(lia) Hlt ltac:(lia)). lia.
    - pose proof (days_before_month_mono y1 m2 m1 ltac:(lia) ltac:(lia) ltac:(lia)). lia. }
  subst m2. split; [reflexivity|lia].
Qed.

Lemma epoch_of_inj dt1 dt2 :
  valid_datetime dt1 = true -> valid_datetime dt2 = true ->
  epoch_of dt1 = epoch_of dt2 -> dt1 = dt2.
Proof.
  destruct dt1 as [y1 m1 d1 h1 mi1 s1], dt2 as [y2 m2 d2 h2 mi2 s2].
  unfold valid_datetime, epoch_of. cbn [year month day hour minute second].
  rewrite !andb_true_iff, !Z.leb_le, !Z.ltb_lt.
  intros [[[[[[Hv1 ?] ?] ?] ?] ?] ?] [[[[[[Hv2 ?] ?] ?] ?] ?] ?] Heq.
  assert (Hdays : days_of_civil y1 m1 d1 = days_of_civil y2 m2 d2) by lia.
  destruct (days_of_civil_inj _ _ _ _ _ _ Hv1 Hv2 Hdays) as (-> & -> & ->).
  assert (h1 = h2) by lia. assert (mi1 = mi2) by lia. assert (s1 = s2) by lia.
  congruence.
Qed.

(** The conversion gives the one valid datetime that lies [t] seconds
    after 1970-01-01 00:00:00. *)
Lemma from_epoch_unique t dt :
  valid_datetime dt = true -> epoch_of dt = t -> dt = from_epoch t.
Proof.
  intros Hv He. destruct (from_epoch_correct t) as [Hv' He'].
  apply epoch_of_inj; [exact Hv|exact Hv'|congruence].
Qed.

End CalendarFacts.

(** ** The Transformer *)

Section TransformFacts.
Context `{Externals}.

Lemma bind_Raise_inv {A B} (r : result A) (k : A -> result B) e :
  bind r k = Raise e -> r = Raise e \/ exists a, r = Ok a /\ k a = Raise e.
Proof. destruct r as [a|e']; simpl; intros Hb; [right; eauto | left; congruence]. Qed.

Lemma bind_Ok_inv {A B} (r : result A) (k : A -> result B) b :
  bind r k = Ok b -> exists a, r = Ok a /\ k a = Ok b.
Proof. destruct r as [a|e']; simpl; intros Hb; [eauto | discriminate]. Qed.

(** [transform] is a function of the four lookups, made in the order of
    the dict literal. *)
Lemma transform_by_paths raw :
  transform raw =
    do ts <- get_path raw ["timestamp"];
    do lat <- get_path raw ["iss_position"; "latitude"];
    do lon <- get_path raw ["iss_position"; "longitude"];
    do msg <- get_path raw ["message"];
    do t <- to_datetime ts;
    Ok [ {| timestamp := t; latitude := lat; longitude := lon; message := msg |} ].
Proof.
  unfold transform. cbn [get_path].
  destruct (getitem raw "timestamp") as [ts|e]; cbn [bind]; [|reflexivity].
  destruct (getitem raw "iss_position") as [pos|e]; cbn [bind]; [|reflexivity].
  destruct (getitem pos "latitude") as [lat|e]; cbn [bind]; [|reflexivity].
  destruct (getitem pos "longitude") as [lon|e]; cbn [bind]; [|reflexivity].
  destruct (getitem raw "message") as [msg|e]; cbn [bind]; reflexivity.
Qed.

Lemma transform_of_well_formed raw t lat lon msg :
  well_formed raw t lat lon msg ->
  transform raw
  = Ok [ {| timestamp := At (Calendar.from_epoch t); latitude := JStr lat;
            longitude := JStr lon; message := JStr msg |} ].
Proof.
  intros (Hts & Hrange & Hlat & Hlon & Hmsg).
  rewrite transform_by_paths, Hts, Hlat, Hlon, Hmsg. cbn [bind to_datetime].
  rewrite Hrange. reflexivity.
Qed.

(** A lookup through objects only can fail in one way: a key is not
    there. *)
Lemma getitem_object_error members key e :
  getitem (JObj members) key = Raise e -> e = KeyError key.
Proof.
  cbn [getitem]. destruct (dict_get members key); intros Hg; [discriminate|].
  congruence.
Qed.

(** C2: a RawResponse in which one of the four required key paths is
    missing makes the Transformer fail: it raises the error of a missing
    path lookup (a [KeyError] naming the absent key when the response
    and its [iss_position] are objects), it returns no frame at all, and
    [main], which has no handler around it, ends on that uncaught
    error after the audit write (or after the logged failure to open
    the audit file), without calling the Loader. *)
Theorem transform_missing_field_fails raw :
  (exists p, In p required_paths /\ is_Ok (get_path raw p) = false) ->
  exists e,
    transform raw = Raise e
    /\ (exists p, In p required_paths /\ get_path raw p = Raise e)
    /\ (forall df, transform raw <> Ok df)
    /\ (forall members,
          raw = JObj members ->
          (forall pos, dict_get members "iss_position" = Some pos ->
                       exists inner, pos = JObj inner) ->
          exists key,
            e = KeyError key
            /\ In key ["timestamp"; "iss_position"; "latitude"; "longitude"; "message"])
    /\ (forall prog OUTPUT rest resp fs,
          raise_for_status resp = Ok tt ->
          json_body resp = Ok raw ->
          raw <> JNull ->
          main prog (OUTPUT :: rest) (Ok resp) fs
          = match open_error (json_file_of OUTPUT) with
            | None =>
                (Uncaught e,
                 <[json_file_of OUTPUT := json_dumps raw]> fs,
                 [LogInfo ("Getting data from " +:+ URL);
                  LogInfo ("Extracted raw data and saved to " +:+ json_file_of OUTPUT);
                  transform_started])
            | Some err =>
                (Uncaught e, fs,
                 [LogInfo ("Getting data from " +:+ URL); caught err; transform_started])
            end).
Proof.
  intros (p & Hp & Hmiss).
  assert (Hfail : exists e, transform raw = Raise e
                            /\ exists q, In q required_paths /\ get_path raw q = Raise e).
  { rewrite transform_by_paths. unfold required_paths in *.
    destruct (get_path raw ["timestamp"]) as [ts|e] eqn:Hts; cbn [bind];
      [|exists e; split; [reflexivity|exists ["timestamp"]; cbn; tauto]].
    destruct (get_path raw ["iss_position"; "latitude"]) as [lat|e] eqn:Hlat; cbn [bind];
      [|exists e; split; [reflexivity|exists ["iss_position"; "latitude"]; cbn; tauto]].
    destruct (get_path raw ["iss_position"; "longitude"]) as [lon|e] eqn:Hlon; cbn [bind];
      [|exists e; split; [reflexivity|exists ["iss_position"; "longitude"]; cbn; tauto]].
    destruct (get_path raw ["message"]) as [msg|e] eqn:Hmsg; cbn [bind];
      [|exists e; split; [reflexivity|exists ["message"]; cbn; tauto]].
    exfalso. cbn [In] in Hp.
    destruct Hp as [<-|[<-|[<-|[<-|[]]]]]; rewrite ?Hts, ?Hlat, ?Hlon, ?Hmsg in Hmiss;
      discriminate. }
  destruct Hfail as (e & He & q & Hq & Hqe).
  exists e. split; [exact He|]. split; [eauto|]. split; [congruence|]. split.
  - intros members -> Hpos. unfold required_paths in Hq. cbn [In] in Hq.
    destruct Hq as [<-|[<-|[<-|[<-|[]]]]]; cbn [get_path] in Hqe.
    + apply bind_Raise_inv in Hqe as [Hg|(a & _ & Hk)]; [|discriminate].
      apply getitem_object_error in Hg. exists "timestamp". cbn; tauto.
    + apply bind_Raise_inv in Hqe as [Hg|(pos & Hg & Hk)].
      * apply getitem_object_error in Hg. exists "iss_position". cbn; tauto.
      * cbn [getitem] in Hg. destruct (dict_get members "iss_position") as [pos'|] eqn:Hd;
          [|discriminate].
        injection Hg as ->. destruct (Hpos pos eq_refl) as (inner & ->).
        apply bind_Raise_inv in Hk as [Hg|(a & _ & Hk)]; [|discriminate].
        apply getitem_object_error in Hg. exists "latitude". cbn; tauto.
    + apply bind_Raise_inv in Hqe as [Hg|(pos & Hg & Hk)].
      * apply getitem_object_error in Hg. exists "iss_position". cbn; tauto.
      * cbn [getitem] in Hg. destruct (dict_get members "iss_position") as [pos'|] eqn:Hd;
          [|discriminate].
        injection Hg as ->. destruct (Hpos pos eq_refl) as (inner & ->).
        apply bind_Raise_inv in Hk as [Hg|(a & _ & Hk)]; [|discriminate].
        apply getitem_object_error in Hg. exists "longitude". cbn; tauto.
    + apply bind_Raise_inv in Hqe as [Hg|(a & _ & Hk)]; [|discriminate].
      apply getitem_object_error in Hg. exists "message". cbn; tauto.
  - intros prog OUTPUT rest resp fs Hstatus Hbody Hnull.
    unfold main, extract. cbn [bind]. rewrite Hstatus. cbn [bind]. rewrite Hbody.
    destruct (open_error (json_file_of OUTPUT)) as [err|]; rewrite He;
      destruct raw; try reflexivity; congruence.
Qed.

(** C3: on a well-formed RawResponse with its four fields the
    Transformer returns a frame of exactly one record, whose timestamp
    is the calendar datetime of the epoch seconds, at second resolution:
    the one valid date and time of day whose distance from 1970-01-01
    00:00:00 is the given number of seconds.  Epoch 0 is 1970-01-01 00:00:00 and
    epoch 1609459200 is 2021-01-01 00:00:00. *)
Theorem transform_converts_timestamp raw t lat lon msg :
  well_formed raw t lat lon msg ->
  (exists r, transform raw = Ok [r]
             /\ timestamp r = At (Calendar.from_epoch t))
  /\ Calendar.valid_datetime (Calendar.from_epoch t) = true
  /\ Calendar.epoch_of (Calendar.from_epoch t) = t
  /\ (forall dt, Calendar.valid_datetime dt = true -> Calendar.epoch_of dt = t ->
                 dt = Calendar.from_epoch t)
  /\ Calendar.from_epoch 0 = Calendar.mkDatetime 1970 1 1 0 0 0
  /\ Calendar.from_epoch 1609459200 = Calendar.mkDatetime 2021 1 1 0 0 0.
Proof.
  intros Hwf. split; [|split; [|split; [|split; [|split]]]].
  - eexists. split; [apply (transform_of_well_formed _ _ _ _ _ Hwf)|reflexivity].
  - apply CalendarFacts.from_epoch_correct.
  - apply CalendarFacts.from_epoch_correct.
  - intros dt Hv He. apply CalendarFacts.from_epoch_unique; assumption.
  - reflexivity.
  - reflexivity.
Qed.

(** C6, as amended: the Transformer takes latitude and longitude from the
    nested top-level object named [iss_position], next to the top-level
    keys [timestamp] and [message]: every frame it returns is the one
    record made of the values found under those four key paths. *)
Theorem transform_reads_iss_position raw df :
  transform raw = Ok df ->
  exists ts t lat lon msg,
    get_path raw ["timestamp"] = Ok ts
    /\ to_datetime ts = Ok t
    /\ get_path raw ["iss_position"; "latitude"] = Ok lat
    /\ get_path raw ["iss_position"; "longitude"] = Ok lon
    /\ get_path raw ["message"] = Ok msg
    /\ df = [ {| timestamp := t; latitude := lat; longitude := lon; message := msg |} ].
Proof.
  rewrite transform_by_paths. intros Ht.
  apply bind_Ok_inv in Ht as (ts & Hts & Ht).
  apply bind_Ok_inv in Ht as (lat & Hlat & Ht).
  apply bind_Ok_inv in Ht as (lon & Hlon & Ht).
  apply bind_Ok_inv in Ht as (msg & Hmsg & Ht).
  apply bind_Ok_inv in Ht as (t & Htime & Ht).
  injection Ht as <-. exists ts, t, lat, lon, msg. auto 10.
Qed.

(** C9: on a well-formed RawResponse the Transformer hands latitude,
    longitude and message on as it received them.  A text without
    delimiter, quote or line break goes into the CSV row as it is, so the
    scenario's ["10.00"], ["20.00"] and ["success"] reach the record and
    the row unchanged. *)
Theorem transform_keeps_fields raw t lat lon msg :
  well_formed raw t lat lon msg ->
  (exists r, transform raw = Ok [r]
             /\ latitude r = JStr lat /\ longitude r = JStr lon /\ message r = JStr msg
             /\ forall short,
                  row_text short r
                  = csv_field (stamp_text short (timestamp r)) +:+ ","
                    +:+ csv_field lat +:+ "," +:+ csv_field lon +:+ "," +:+ csv_field msg)
  /\ (forall s, string_exists needs_quote s = false -> csv_field s = s)
  /\ transform scenario_raw = Ok [scenario_row]
  /\ csv_text [scenario_row] false = "2021-01-01,10.00,20.00,success" +:+ nl.
Proof.
  intros Hwf. split; [|split; [|split]].
  - eexists. split; [apply (transform_of_well_formed _ _ _ _ _ Hwf)|].
    repeat split; reflexivity.
  - intros s Hs. unfold csv_field. rewrite Hs. reflexivity.
  - reflexivity.
  - reflexivity.
Qed.

(** C10: what the Transformer returns depends on the RawResponse through
    the four key paths only: two responses whose lookups at [timestamp],
    [iss_position.latitude], [iss_position.longitude] and [message] agree
    are transformed alike, whatever else they hold. *)
Theorem transform_depends_on_paths_only raw1 raw2 :
  (forall p, In p required_paths -> get_path raw1 p = get_path raw2 p) ->
  transform raw1 = transform raw2.
Proof.
  intros Hagree. rewrite !transform_by_paths.
  rewrite (Hagree ["timestamp"]) by (cbn; tauto).
  rewrite (Hagree ["iss_position"; "latitude"]) by (cbn; tauto).
  rewrite (Hagree ["iss_position"; "longitude"]) by (cbn; tauto).
  rewrite (Hagree ["message"]) by (cbn; tauto).
  reflexivity.
Qed.

End TransformFacts.

Lemma scenario_well_formed :
  well_formed scenario_raw 1609459200 "10.00" "20.00" "success".
Proof. repeat split; reflexivity. Defined.

Lemma transform_missing_field_fails_witness :
  exists e,
    @transform sample_externals position_raw = Raise e
    /\ (exists p, In p required_paths /\ get_path position_raw p = Raise e)
    /\ (forall df, @transform sample_externals position_raw <> Ok df).
Proof.
  destruct (@transform_missing_field_fails sample_externals position_raw)
    as (e & He & Hp & Hnone & _).
  - exists ["iss_position"; "latitude"]. split; [cbn; tauto|reflexivity].
  - exists e. auto.
Defined.

Lemma transform_converts_timestamp_witness :
  (exists r, @transform sample_externals scenario_raw = Ok [r]
             /\ timestamp r = At (Calendar.from_epoch 1609459200))
  /\ Calendar.epoch_of (Calendar.from_epoch 1609459200) = 1609459200%Z.
Proof.
  destruct (@transform_converts_timestamp sample_externals scenario_raw
              1609459200 "10.00" "20.00" "success" scenario_well_formed)
    as (Hrow & _ & Hepoch & _).
  split; [exact Hrow|exact Hepoch].
Defined.

Lemma transform_reads_iss_position_witness :
  exists ts t lat lon msg,
    get_path scenario_raw ["timestamp"] = Ok ts
    /\ @to_datetime sample_externals ts = Ok t
    /\ get_path scenario_raw ["iss_position"; "latitude"] = Ok lat
    /\ get_path scenario_raw ["iss_position"; "longitude"] = Ok lon
    /\ get_path scenario_raw ["message"] = Ok msg
    /\ [scenario_row]
       = [ {| timestamp := t; latitude := lat; longitude := lon; message := msg |} ].
Proof.
  apply (@transform_reads_iss_position sample_externals scenario_raw [scenario_row]).
  reflexivity.
Defined.

(** The response of the scenario with its coordinates under [position]
    has all that the claim asks for, and the Transformer fails on it. *)
Lemma position_object_is_not_read :
  get_path position_raw ["timestamp"] = Ok (JInt 1609459200)
  /\ get_path position_raw ["position"; "latitude"] = Ok (JStr "10.00")
  /\ get_path position_raw ["position"; "longitude"] = Ok (JStr "20.00")
  /\ get_path position_raw ["message"] = Ok (JStr "success")
  /\ @transform sample_externals position_raw = Raise (KeyError "iss_position").
Proof. repeat split; reflexivity. Qed.

Lemma transform_keeps_fields_witness :
  exists r, @transform sample_externals scenario_raw = Ok [r]
            /\ latitude r = JStr "10.00" /\ longitude r = JStr "20.00"
            /\ message r = JStr "success".
Proof.
  destruct (@transform_keeps_fields sample_externals scenario_raw
              1609459200 "10.00" "20.00" "success" scenario_well_formed)
    as ((r & Hr & Hlat & Hlon & Hmsg & _) & _).
  exists r. auto.
Defined.

Lemma transform_depends_on_paths_only_witness :
  noisy_raw <> scenario_raw
  /\ @transform sample_externals noisy_raw = @transform sample_externals scenario_raw.
Proof.
  split; [discriminate|].
  apply (@transform_depends_on_paths_only sample_externals noisy_raw scenario_raw).
  intros p Hp. cbn in Hp.
  destruct Hp as [<-|[<-|[<-|[<-|[]]]]]; reflexivity.
Defined.

(** ** The Extractor and the entry point *)

Section RunFacts.
Context `{Externals}.


Lemma extract_on_failure json_file net fs :
  extraction_fails net = true ->
  exists e,
    extract json_file net fs
    = (JNull, fs, [LogInfo ("Getting data from " +:+ URL); caught e]).
Proof.
  unfold extract. destruct net as [r|e]; cbn [extraction_fails bind].
  - destruct (raise_for_status r) as [[]|e]; cbn [is_Ok negb orb bind]; [|eauto].
    destruct (json_body r) as [data|e]; cbn [is_Ok negb]; [discriminate|eauto].
  - eauto.
Qed.

Lemma extract_on_success json_file net fs :
  extraction_fails net = false ->
  exists r data,
    net = Ok r /\ raise_for_status r = Ok tt /\ json_body r = Ok data
    /\ extract json_file net fs
       = match open_error json_file with
         | None =>
             (data, <[json_file := json_dumps data]> fs,
              [LogInfo ("Getting data from " +:+ URL);
               LogInfo ("Extracted raw data and saved to " +:+ json_file)])
         | Some err =>
             (data, fs, [LogInfo ("Getting data from " +:+ URL); caught err])
         end.
Proof.
  unfold extract. destruct net as [r|e]; cbn [extraction_fails bind]; [|discriminate].
  destruct (raise_for_status r) as [[]|e] eqn:Hs; cbn [is_Ok negb orb bind]; [|discriminate].
  destruct (json_body r) as [data|e] eqn:Hb; cbn [is_Ok negb]; [|discriminate].
  intros _. exists r, data. auto.
Qed.


Lemma extract_log_shape json_file net fs :
  exists entry,
    log_of (extract json_file net fs) = [LogInfo ("Getting data from " +:+ URL); entry]
    /\ entry <> transform_started
    /\ forall out, entry <> LogInfo ("Saved cleaned data to " +:+ out).
Proof.
  destruct (extraction_fails net) eqn:Hf.
  - destruct (extract_on_failure json_file net fs Hf) as (e & ->).
    eexists. split; [reflexivity|]. split; [discriminate|intros out; discriminate].
  - destruct (extract_on_success json_file net fs Hf) as (r & data & _ & _ & _ & ->).
    destruct (open_error json_file) as [err|];
      (eexists; split; [reflexivity|]; split; [|intros out]; cbn; discriminate).
Qed.

(** What a run of the script does, by cases. *)
Lemma main_without_argument prog net fs :
  main prog [] net fs
  = (Exit 1, fs, [LogError ("Usage: python " +:+ prog +:+ " <output_file>") None]).
Proof. reflexivity. Qed.

Lemma main_extraction_failed prog OUTPUT rest net fs :
  result_of (extract (json_file_of OUTPUT) net fs) = JNull ->
  main prog (OUTPUT :: rest) net fs
  = (Exit 1, files_of (extract (json_file_of OUTPUT) net fs),
     log_of (extract (json_file_of OUTPUT) net fs)
     ++ [LogError "Extraction failed. Exiting program." None]).
Proof.
  unfold main. destruct (extract (json_file_of OUTPUT) net fs) as [[raw fs1] log1].
  cbn. intros ->. reflexivity.
Qed.

Lemma main_transform_failed prog OUTPUT rest net fs e :
  result_of (extract (json_file_of OUTPUT) net fs) <> JNull ->
  transform (result_of (extract (json_file_of OUTPUT) net fs)) = Raise e ->
  main prog (OUTPUT :: rest) net fs
  = (Uncaught e, files_of (extract (json_file_of OUTPUT) net fs),
     log_of (extract (json_file_of OUTPUT) net fs) ++ [transform_started]).
Proof.
  unfold main. destruct (extract (json_file_of OUTPUT) net fs) as [[raw fs1] log1].
  cbn. intros Hraw ->. destruct raw; try reflexivity. congruence.
Qed.

Lemma main_load_failed prog OUTPUT rest net fs df e :
  result_of (extract (json_file_of OUTPUT) net fs) <> JNull ->
  transform (result_of (extract (json_file_of OUTPUT) net fs)) = Ok df ->
  load_raises OUTPUT = Some e ->
  main prog (OUTPUT :: rest) net fs
  = (Uncaught e, files_of (extract (json_file_of OUTPUT) net fs),
     log_of (extract (json_file_of OUTPUT) net fs) ++ [transform_started]).
Proof.
  unfold main. destruct (extract (json_file_of OUTPUT) net fs) as [[raw fs1] log1].
  cbn. intros Hraw -> ->. destruct raw; try reflexivity. congruence.
Qed.

Lemma main_completed prog OUTPUT rest net fs df :
  result_of (extract (json_file_of OUTPUT) net fs) <> JNull ->
  transform (result_of (extract (json_file_of OUTPUT) net fs)) = Ok df ->
  load_raises OUTPUT = None ->
  main prog (OUTPUT :: rest) net fs
  = (Finished,
     fst (load df OUTPUT (files_of (extract (json_file_of OUTPUT) net fs))),
     log_of (extract (json_file_of OUTPUT) net fs)
     ++ [transform_started; LogInfo ("Saved cleaned data to " +:+ OUTPUT)]).
Proof.
  unfold main. destruct (extract (json_file_of OUTPUT) net fs) as [[raw fs1] log1].
  cbn. intros Hraw -> ->. destruct raw; try reflexivity. congruence.
Qed.

(** C7: the process ends with status 0 exactly on full success, that
    is when an output path was given, the Extractor returned data, the
    Transformer returned a frame and the Loader returned; the run has
    then ended normally with the frame loaded and the records of both
    stages in the log.  In every other case the status is 1; in particular
    when the output path is missing, after the usage error and before
    anything else, and when the extraction fails, in which case neither
    the Transformer nor the Loader has run: their log records are absent
    and the files are as the Extractor left them (untouched, when one of
    its three failures occurred). *)
Theorem main_exit_status prog args net fs :
  (exit_status (result_of (main prog args net fs)) = 0%Z
   \/ exit_status (result_of (main prog args net fs)) = 1%Z)
  /\ (exit_status (result_of (main prog args net fs)) = 0%Z
      <-> exists OUTPUT rest df,
            args = OUTPUT :: rest
            /\ result_of (extract (json_file_of OUTPUT) net fs) <> JNull
            /\ transform (result_of (extract (json_file_of OUTPUT) net fs)) = Ok df
            /\ load_raises OUTPUT = None)
  /\ (forall OUTPUT rest df,
        args = OUTPUT :: rest ->
        result_of (extract (json_file_of OUTPUT) net fs) <> JNull ->
        transform (result_of (extract (json_file_of OUTPUT) net fs)) = Ok df ->
        load_raises OUTPUT = None ->
        main prog args net fs
        = (Finished,
           fst (load df OUTPUT (files_of (extract (json_file_of OUTPUT) net fs))),
           log_of (extract (json_file_of OUTPUT) net fs)
           ++ [transform_started; LogInfo ("Saved cleaned data to " +:+ OUTPUT)]))
  /\ (args = [] ->
      main prog args net fs
      = (Exit 1, fs, [LogError ("Usage: python " +:+ prog +:+ " <output_file>") None]))
  /\ (forall OUTPUT rest,
        args = OUTPUT :: rest ->
        result_of (extract (json_file_of OUTPUT) net fs) = JNull ->
        result_of (main prog args net fs) = Exit 1
        /\ files_of (main prog args net fs)
           = files_of (extract (json_file_of OUTPUT) net fs)
        /\ ~ In transform_started (log_of (main prog args net fs))
        /\ ~ In (LogInfo ("Saved cleaned data to " +:+ OUTPUT))
                (log_of (main prog args net fs)))
  /\ (forall OUTPUT rest,
        args = OUTPUT :: rest ->
        extraction_fails net = true ->
        result_of (main prog args net fs) = Exit 1
        /\ files_of (main prog args net fs) = fs).
Proof.
  assert (Hnull : forall OUTPUT rest,
            args = OUTPUT :: rest ->
            result_of (extract (json_file_of OUTPUT) net fs) = JNull ->
            result_of (main prog args net fs) = Exit 1
            /\ files_of (main prog args net fs)
               = files_of (extract (json_file_of OUTPUT) net fs)
            /\ ~ In transform_started (log_of (main prog args net fs))
            /\ ~ In (LogInfo ("Saved cleaned data to " +:+ OUTPUT))
                    (log_of (main prog args net fs))).
  { intros OUTPUT rest -> Hraw. rewrite (main_extraction_failed _ _ _ _ _ Hraw).
    destruct (extract_log_shape (json_file_of OUTPUT) net fs) as (entry & -> & Hne1 & Hne2).
    cbn. split; [reflexivity|]. split; [reflexivity|].
    split; intros [Hin|[Hin|[Hin|[]]]]; try discriminate.
    - apply Hne1. exact Hin.
    - apply (Hne2 OUTPUT). exact Hin. }
  assert (Hcases : forall OUTPUT rest,
            args = OUTPUT :: rest ->
            (exit_status (result_of (main prog args net fs)) = 1%Z
             /\ ~ (exists df,
                     result_of (extract (json_file_of OUTPUT) net fs) <> JNull
                     /\ transform (result_of (extract (json_file_of OUTPUT) net fs)) = Ok df
                     /\ load_raises OUTPUT = None))
            \/ (exit_status (result_of (main prog args net fs)) = 0%Z
                /\ exists df,
                     result_of (extract (json_file_of OUTPUT) net fs) <> JNull
                     /\ transform (result_of (extract (json_file_of OUTPUT) net fs)) = Ok df
                     /\ load_raises OUTPUT = None)).
  { intros OUTPUT rest ->.
    destruct (result_of (extract (json_file_of OUTPUT) net fs)) eqn:Hraw;
      try (destruct (transform (result_of (extract (json_file_of OUTPUT) net fs)))
             as [df|e] eqn:Ht;
           [destruct (load_raises OUTPUT) as [e|] eqn:Hl;
            [rewrite (main_load_failed prog OUTPUT rest net fs df e) by congruence;
             left; split; [reflexivity|];
             intros (df' & _ & _ & Hl'); congruence
            |rewrite (main_completed prog OUTPUT rest net fs df) by congruence;
             right; split; [reflexivity|];
             exists df; rewrite Hraw in Ht; repeat split; [discriminate|exact Ht]]
           |rewrite (main_transform_failed prog OUTPUT rest net fs e) by congruence;
            left; split; [reflexivity|];
            intros (df' & _ & Ht' & _); rewrite Hraw in Ht; congruence]).
    rewrite (main_extraction_failed _ _ _ _ _ Hraw). left. split; [reflexivity|].
    intros (df' & Hne & _). congruence. }
  split; [|split; [|split; [|split; [|split; [exact Hnull|]]]]].
  - destruct args as [|OUTPUT rest]; [right; reflexivity|].
    destruct (Hcases OUTPUT rest eq_refl) as [[Hone _]|[Hzero _]]; auto.
  - split.
    + destruct args as [|OUTPUT rest]; [cbn; discriminate|].
      intros Hzero. exists OUTPUT, rest.
      destruct (Hcases OUTPUT rest eq_refl) as [[Hone _]|[_ (df & Hok)]];
        [rewrite Hone in Hzero; discriminate|].
      exists df. split; [reflexivity|exact Hok].
    + intros (OUTPUT & rest & df & -> & Hraw & Ht & Hl).
      rewrite (main_completed prog OUTPUT rest net fs df Hraw Ht Hl). reflexivity.
  - intros OUTPUT rest df -> Hraw Ht Hl. apply main_completed; assumption.
  - intros ->. reflexivity.
  - intros OUTPUT rest Hargs Hf.
    destruct (extract_on_failure (json_file_of OUTPUT) net fs Hf) as (e & He).
    destruct (Hnull OUTPUT rest Hargs) as (Hexit & Hfiles & _).
    + rewrite He. reflexivity.
    + split; [exact Hexit|]. rewrite Hfiles, He. reflexivity.
Qed.

End RunFacts.



Lemma main_exit_status_witness :
  (result_of (@main sample_externals "iss.py" ["out.csv"]
                (Ok (mkResponse 500 (Ok scenario_raw))) ∅) = Exit 1
   /\ files_of (@main sample_externals "iss.py" ["out.csv"]
                  (Ok (mkResponse 500 (Ok scenario_raw))) ∅) = ∅)
  /\ exit_status (result_of (@main sample_externals "iss.py" ["out.csv"]
                               (Ok (mkResponse 200 (Ok scenario_raw))) ∅)) = 0%Z
  /\ exit_status (result_of (@main no_archive_externals "iss.py" ["archive/out.csv"]
                               (Ok (mkResponse 200 (Ok scenario_raw))) ∅)) <> 0%Z.
Proof.
  split; [|split].
  - destruct (@main_exit_status sample_externals "iss.py" ["out.csv"]
                (Ok (mkResponse 500 (Ok scenario_raw))) ∅)
      as (_ & _ & _ & _ & _ & Hfail).
    apply (Hfail "out.csv" []); reflexivity.
  - apply (@main_exit_status sample_externals "iss.py" ["out.csv"]
             (Ok (mkResponse 200 (Ok scenario_raw))) ∅).
    exists "out.csv", [], [scenario_row].
    split; [reflexivity|]. split; [discriminate|]. split; reflexivity.
  - intros Hzero.
    apply (@main_exit_status no_archive_externals "iss.py" ["archive/out.csv"]
             (Ok (mkResponse 200 (Ok scenario_raw))) ∅) in Hzero.
    destruct Hzero as (OUTPUT & rest & df & Hargs & _ & _ & Hl).
    injection Hargs as <- _. discriminate.
Defined.

(** ** Text and lines *)

Lemma append_nil_l t : EmptyString +:+ t = t.
Proof. reflexivity. Qed.

Lemma append_cons c s t : String c s +:+ t = String c (s +:+ t).
Proof. reflexivity. Qed.

Ltac push_append := rewrite ?append_cons, ?append_nil_l.

Lemma append_empty_r s : s +:+ EmptyString = s.
Proof. induction s as [|c s IH]; push_append; [reflexivity|]. rewrite IH. reflexivity. Qed.

Lemma append_assoc a b c : (a +:+ b) +:+ c = a +:+ (b +:+ c).
Proof. induction a as [|x a IH]; push_append; [reflexivity|]. rewrite IH. reflexivity. Qed.

Lemma string_exists_app p a b :
  string_exists p (a +:+ b) = string_exists p a || string_exists p b.
Proof.
  induction a as [|x a IH]; push_append; cbn [string_exists orb]; [reflexivity|].
  rewrite IH. apply orb_assoc.
Qed.

Lemma has_line_break_app a b :
  has_line_break (a +:+ b) = has_line_break a || has_line_break b.
Proof. apply string_exists_app. Qed.

Lemma lines_terminated_nonempty a : lines (a +:+ nl) <> [].
Proof.
  induction a as [|c a IH]; push_append; cbn [lines nl]; [discriminate|].
  destruct (Ascii.eqb c LF); [discriminate|].
  destruct (lines (a +:+ nl)); [contradiction|discriminate].
Qed.

(** After an ended line, the lines of what follows are simply added. *)
Lemma lines_app_terminated a b :
  lines ((a +:+ nl) +:+ b) = lines (a +:+ nl) ++ lines b.
Proof.
  induction a as [|c a IH]; push_append.
  - unfold nl. push_append. reflexivity.
  - cbn [lines]. destruct (Ascii.eqb c LF).
    + rewrite IH. reflexivity.
    + rewrite IH. pose proof (lines_terminated_nonempty a) as Hne.
      destruct (lines (a +:+ nl)); [contradiction|reflexivity].
Qed.

Lemma lines_app a b : terminated a -> lines (a +:+ b) = lines a ++ lines b.
Proof.
  intros [->|(a' & ->)]; [reflexivity|]. apply lines_app_terminated.
Qed.

Lemma lines_single s : has_line_break s = false -> lines (s +:+ nl) = [s].
Proof.
  unfold has_line_break. induction s as [|c s IH]; push_append; [reflexivity|].
  cbn [string_exists lines]. rewrite (Ascii.eqb_sym c LF).
  destruct (Ascii.eqb LF c); cbn [orb]; [discriminate|].
  intros Hs. rewrite (IH Hs). reflexivity.
Qed.

Lemma terminated_app a b : terminated (a +:+ b +:+ nl).
Proof. right. exists (a +:+ b). symmetry. apply append_assoc. Qed.

Lemma double_quotes_no_line_break s :
  has_line_break s = false -> has_line_break (double_quotes s) = false.
Proof.
  unfold has_line_break. induction s as [|c s IH]; cbn [string_exists double_quotes];
    [reflexivity|].
  intros Hs. apply orb_false_elim in Hs as [Hc Hs].
  destruct (Ascii.eqb c dquote); cbn [string_exists]; rewrite ?Hc, (IH Hs); reflexivity.
Qed.

Lemma csv_field_no_line_break s :
  has_line_break s = false -> has_line_break (csv_field s) = false.
Proof.
  intros Hs. unfold csv_field. destruct (string_exists needs_quote s); [|exact Hs].
  change (String dquote (double_quotes s +:+ String dquote EmptyString))
    with (String dquote EmptyString +:+ double_quotes s +:+ String dquote EmptyString).
  rewrite !has_line_break_app, (double_quotes_no_line_break s Hs). reflexivity.
Qed.

Lemma digits_no_line_break d :
  has_line_break (NilEmpty.string_of_uint d) = false.
Proof. unfold has_line_break. induction d; cbn; auto. Qed.

Lemma Z_to_string_no_line_break z : has_line_break (Z_to_string z) = false.
Proof.
  unfold Z_to_string, NilZero.string_of_int, NilZero.string_of_uint.
  destruct (Z.to_int z) as [d|d].
  - destruct d; try reflexivity; apply digits_no_line_break.
  - change (String "-" ?s) with (String "-" EmptyString +:+ s).
    rewrite has_line_break_app.
    destruct d; try reflexivity; cbn [orb has_line_break string_exists Ascii.eqb];
      apply digits_no_line_break.
Qed.

Lemma pad2_no_line_break z : has_line_break (pad2 z) = false.
Proof.
  unfold pad2. destruct (z <? 10)%Z; [|apply Z_to_string_no_line_break].
  rewrite has_line_break_app, Z_to_string_no_line_break. reflexivity.
Qed.

Lemma pad4_no_line_break z : has_line_break (pad4 z) = false.
Proof.
  unfold pad4.
  destruct (z <? 0)%Z, (z <? 10)%Z, (z <? 100)%Z, (z <? 1000)%Z;
    rewrite ?has_line_break_app, Z_to_string_no_line_break; reflexivity.
Qed.

Lemma stamp_text_no_line_break short t : has_line_break (stamp_text short t) = false.
Proof.
  destruct t as [dt|]; [|reflexivity]. unfold stamp_text, date_text, time_text.
  destruct short;
    rewrite ?has_line_break_app, ?pad4_no_line_break, ?pad2_no_line_break;
    reflexivity.
Qed.

(** ** The Loader *)

Section LoadFacts.
Context `{Externals}.

Lemma csv_text_one r header :
  csv_text [r] header
  = (if header then header_text +:+ nl else EmptyString) +:+ record_line r +:+ nl.
Proof. reflexivity. Qed.

Lemma record_line_no_line_break r :
  single_line_row r = true -> has_line_break (record_line r) = false.
Proof.
  unfold single_line_row. rewrite !andb_true_iff, !negb_true_iff.
  intros [[Hlat Hlon] Hmsg]. unfold record_line, row_text.
  rewrite !has_line_break_app.
  rewrite (csv_field_no_line_break _ (stamp_text_no_line_break _ _)).
  rewrite (csv_field_no_line_break _ Hlat), (csv_field_no_line_break _ Hlon),
    (csv_field_no_line_break _ Hmsg).
  reflexivity.
Qed.

Lemma load_fresh df path fs :
  fs !! path = None -> fst (load df path fs) = <[path := csv_text df true]> fs.
Proof. intros Hnone. unfold load, os_path_exists, to_csv. rewrite Hnone. reflexivity. Qed.

Lemma load_existing df path fs old :
  fs !! path = Some old ->
  fst (load df path fs) = <[path := old +:+ csv_text df false]> fs.
Proof. intros Hold. unfold load, os_path_exists, to_csv. rewrite Hold. reflexivity. Qed.

Lemma load_all_cons r recs path fs :
  load_all (frames_of (r :: recs)) path fs
  = load_all (frames_of recs) path (fst (load [r] path fs)).
Proof. reflexivity. Qed.

Lemma load_all_existing recs : forall path fs old,
  fs !! path = Some old ->
  load_all (frames_of recs) path fs = <[path := old +:+ data_text recs]> fs.
Proof.
  induction recs as [|r recs IH]; intros path fs old Hold.
  - cbn. rewrite append_empty_r. symmetry. apply insert_id. exact Hold.
  - rewrite load_all_cons, (load_existing _ _ _ _ Hold), csv_text_one.
    rewrite (IH path _ (old +:+ record_line r +:+ nl)) by apply lookup_insert_eq.
    rewrite insert_insert_eq. cbn [data_text fold_right]. push_append.
    rewrite !append_assoc. reflexivity.
Qed.

Lemma load_all_fresh r recs path fs :
  fs !! path = None ->
  load_all (frames_of (r :: recs)) path fs
  = <[path := header_text +:+ nl +:+ data_text (r :: recs)]> fs.
Proof.
  intros Hnone. rewrite load_all_cons, (load_fresh _ _ _ Hnone), csv_text_one.
  rewrite (load_all_existing recs path _ ((header_text +:+ nl) +:+ record_line r +:+ nl))
    by apply lookup_insert_eq.
  rewrite insert_insert_eq. cbn [data_text fold_right].
  rewrite !append_assoc. reflexivity.
Qed.

Lemma lines_data_text recs :
  forallb single_line_row recs = true -> lines (data_text recs) = map record_line recs.
Proof.
  induction recs as [|r recs IH]; [reflexivity|].
  cbn [forallb data_text fold_right map]. rewrite andb_true_iff. intros [Hr Hrest].
  rewrite <- append_assoc, lines_app_terminated.
  rewrite (lines_single _ (record_line_no_line_break r Hr)).
  fold (data_text recs). rewrite (IH Hrest). reflexivity.
Qed.

(** C4, as amended: N >= 1 calls of the Loader, one record each, on a
    path that did not exist leave a file that holds the header
    [timestamp,latitude,longitude,message], written at the creation
    only, and after it the rows of the N records in call order; when no
    field of the records holds a line break these are exactly one header
    line and N data lines (a field with a line break is written between
    quotes over several lines).  On a path that exists the Loader adds
    the row of its record to the content, whatever that is, with no
    header; no other file changes. *)
Theorem loader_sequence recs path fs :
  fs !! path = None ->
  recs <> [] ->
  load_all (frames_of recs) path fs !! path
  = Some (header_text +:+ nl +:+ data_text recs)
  /\ (forallb single_line_row recs = true ->
      lines (header_text +:+ nl +:+ data_text recs)
      = header_text :: map record_line recs
      /\ length (lines (header_text +:+ nl +:+ data_text recs)) = 1 + length recs)
  /\ (forall other, other <> path ->
        load_all (frames_of recs) path fs !! other = fs !! other)
  /\ (forall r old fs0,
        fs0 !! path = Some old ->
        fst (load [r] path fs0) = <[path := old +:+ record_line r +:+ nl]> fs0).
Proof.
  intros Hnone Hne. destruct recs as [|r recs]; [contradiction|].
  rewrite (load_all_fresh r recs path fs Hnone).
  split; [apply lookup_insert_eq|]. split; [|split].
  - intros Hsingle.
    assert (Hlines : lines (header_text +:+ nl +:+ data_text (r :: recs))
                     = header_text :: map record_line (r :: recs)).
    { rewrite <- append_assoc, lines_app_terminated.
      rewrite (lines_single header_text) by reflexivity.
      rewrite (lines_data_text _ Hsingle). reflexivity. }
    split; [exact Hlines|]. rewrite Hlines. cbn [length]. rewrite length_map. reflexivity.
  - intros other Hother. apply lookup_insert_ne. congruence.
  - intros r0 old fs0 Hold. rewrite (load_existing _ _ _ _ Hold), csv_text_one.
    reflexivity.
Qed.

(** C8, as amended: one call of the Loader on a file that exists adds
    the row of its record after the content there was, whatever the file
    and the record: that content is the beginning of the new content,
    and no other file changes.  When the content there was is empty or
    ends with a line feed and no field of the record holds a line feed,
    exactly one line is added: the line count grows by 1 and every line
    there was stays as it was. *)
Theorem loader_appends_one_line r path fs old :
  fs !! path = Some old ->
  exists new,
    fst (load [r] path fs) !! path = Some new
    /\ new = old +:+ record_line r +:+ nl
    /\ (forall other, other <> path -> fst (load [r] path fs) !! other = fs !! other)
    /\ (terminated old ->
        single_line_row r = true ->
        lines new = lines old ++ [record_line r]
        /\ length (lines new) = length (lines old) + 1).
Proof.
  intros Hold. exists (old +:+ record_line r +:+ nl).
  rewrite (load_existing _ _ _ _ Hold), csv_text_one.
  split; [apply lookup_insert_eq|]. split; [reflexivity|]. split.
  - intros other Hother. apply lookup_insert_ne. congruence.
  - intros Hterm Hsingle.
    assert (Hlines : lines (old +:+ record_line r +:+ nl) = lines old ++ [record_line r]).
    { rewrite (lines_app _ _ Hterm).
      rewrite (lines_single _ (record_line_no_line_break r Hsingle)). reflexivity. }
    split; [exact Hlines|]. rewrite Hlines, length_app. reflexivity.
Qed.

End LoadFacts.

Lemma loader_sequence_witness :
  @load_all sample_externals (frames_of [scenario_row; two_line_row]) "out.csv" ∅
    !! "out.csv"
  = Some (header_text +:+ nl
          +:+ @data_text sample_externals [scenario_row; two_line_row])
  /\ length (lines (header_text +:+ nl +:+ @data_text sample_externals [scenario_row]))
     = 2.
Proof.
  split.
  - apply (@loader_sequence sample_externals [scenario_row; two_line_row] "out.csv" ∅);
      [apply lookup_empty|discriminate].
  - apply (@loader_sequence sample_externals [scenario_row] "out.csv" ∅);
      [apply lookup_empty|discriminate|reflexivity].
Defined.

(** One record whose message holds a line feed: the fresh file has three
    lines, not two. *)
Lemma loader_record_over_two_lines :
  exists content,
    @load_all sample_externals (frames_of [two_line_row]) "out.csv" ∅ !! "out.csv"
    = Some content
    /\ nth 0 (lines content) EmptyString = header_text
    /\ length (lines content) = 3
    /\ length (lines content) <> 1 + length [two_line_row].
Proof.
  eexists. split.
  - rewrite (@load_all_cons sample_externals).
    rewrite (@load_fresh sample_externals) by apply lookup_empty.
    apply lookup_insert_eq.
  - split; [reflexivity|]. split; [reflexivity|]. vm_compute. discriminate.
Qed.

Lemma loader_appends_one_line_witness :
  exists new,
    fst (@load sample_externals [scenario_row] "out.csv" {[ "out.csv" := header_text +:+ nl ]})
      !! "out.csv" = Some new
    /\ lines new = [header_text; "2021-01-01,10.00,20.00,success"].
Proof.
  destruct (@loader_appends_one_line sample_externals scenario_row "out.csv"
              {[ "out.csv" := header_text +:+ nl ]} (header_text +:+ nl))
    as (new & Hnew & _ & _ & Hlines).
  - apply lookup_singleton_eq.
  - exists new. split; [exact Hnew|].
    destruct Hlines as [Hlines _].
    + right. exists header_text. reflexivity.
    + reflexivity.
    + rewrite Hlines. reflexivity.
Defined.

(** A file that holds the header without a line feed after it: the row
    goes onto the header's line, the file still has one line, and that
    line has changed. *)
Lemma loader_on_unterminated_file :
  exists new,
    fst (@load sample_externals [scenario_row] "out.csv" {[ "out.csv" := header_text ]})
      !! "out.csv" = Some new
    /\ lines header_text = [header_text]
    /\ lines new = [header_text +:+ "2021-01-01,10.00,20.00,success"]
    /\ length (lines new) = length (lines header_text).
Proof.
  eexists. split.
  - rewrite (@load_existing sample_externals _ _ _ header_text)
      by apply lookup_singleton_eq.
    apply lookup_insert_eq.
  - repeat split; reflexivity.
Qed.

(** ** The audit path *)

Lemma replace_from_absent old new s :
  occurs old s = false -> replace_from old new 0 s = s.
Proof.
  induction s as [|c s IH]; [reflexivity|].
  cbn [occurs replace_from]. intros Hocc. apply orb_false_elim in Hocc as [Hhere Hrest].
  rewrite Hhere, (IH Hrest). reflexivity.
Qed.

(** Before the last three characters of a text, [.csv] is found in the
    text followed by [.csv] where it is found in the text followed by
    [.cs]. *)
Lemma prefix_csv_inside c rest :
  String.prefix ".csv" (String c (rest +:+ ".csv"))
  = String.prefix ".csv" (String c (rest +:+ ".cs")).
Proof.
  assert (Hempty : forall s, String.prefix EmptyString s = true) by (intros []; reflexivity).
  destruct rest as [|c1 [|c2 [|c3 rest]]]; try reflexivity.
  rewrite !append_cons. cbn [String.prefix].
  repeat destruct (ascii_dec _ _); try reflexivity.
  rewrite !Hempty. reflexivity.
Qed.

Lemma replace_from_final_csv stem :
  occurs ".csv" (stem +:+ ".cs") = false ->
  replace_from ".csv" EmptyString 0 (stem +:+ ".csv") = stem.
Proof.
  induction stem as [|c stem IH]; [reflexivity|].
  rewrite !append_cons. cbn [occurs]. intros Hocc.
  apply orb_false_elim in Hocc as [Hhere Hrest].
  cbn [replace_from]. rewrite prefix_csv_inside, Hhere, (IH Hrest). reflexivity.
Qed.

(** Where the audit path is the expected one: a path that ends with its
    only [.csv] has it replaced by [.json], and a path without [.csv]
    gets [.json] after it. *)
Lemma json_file_of_csv_path stem :
  occurs ".csv" (stem +:+ ".cs") = false ->
  json_file_of (stem +:+ ".csv") = stem +:+ ".json".
Proof.
  intros Hocc. unfold json_file_of, str_replace.
  rewrite (replace_from_final_csv stem Hocc). reflexivity.
Qed.

Lemma json_file_of_other_path p :
  occurs ".csv" p = false -> json_file_of p = p +:+ ".json".
Proof.
  intros Hocc. unfold json_file_of, str_replace.
  rewrite (replace_from_absent _ _ _ Hocc). reflexivity.
Qed.

(** C5: the audit path is meant to be the CSV path with its extension
    replaced by [.json].  [main] removes every [.csv] found in the path,
    wherever it stands, and puts [.json] at the end: the two agree on
    [out.csv], and differ when [.csv] stands in a directory name, when it
    stands twice at the end, and when the extension is another one. *)
Theorem audit_path_removes_every_csv :
  (json_file_of "out.csv" = "out.json"
   /\ spec_audit_path "out.csv" = "out.json")
  /\ (json_file_of "archive.csv/iss.csv" = "archive/iss.json"
      /\ spec_audit_path "archive.csv/iss.csv" = "archive.csv/iss.json")
  /\ (json_file_of "iss.csv.csv" = "iss.json"
      /\ spec_audit_path "iss.csv.csv" = "iss.csv.json")
  /\ (json_file_of "out.txt" = "out.txt.json"
      /\ spec_audit_path "out.txt" = "out.json").
Proof. repeat split; reflexivity. Qed.

(** ** The audit path and the output path *)

Lemma length_append a b :
  String.length (a +:+ b) = String.length a + String.length b.
Proof.
  induction a as [|c a IH]; push_append; [reflexivity|].
  cbn [String.length]. rewrite IH. reflexivity.
Qed.

Lemma prefix_length a : forall b,
  String.prefix a b = true -> String.length a <= String.length b.
Proof.
  induction a as [|x a IH]; intros b Hp; [cbn; lia|].
  destruct b as [|y b]; [discriminate|]. cbn [String.prefix] in Hp.
  destruct (ascii_dec x y); [|discriminate].
  cbn [String.length]. specialize (IH b Hp). lia.
Qed.

(** Each [.csv] that is removed takes four characters away. *)
Lemma replace_from_csv_length s : forall skip,
  exists k,
    String.length (replace_from ".csv" EmptyString skip s) + 4 * k
    + Nat.min skip (String.length s)
    = String.length s.
Proof.
  induction s as [|c s IH]; intros skip.
  - exists 0. cbn. lia.
  - destruct skip as [|j].
    + cbn [replace_from]. destruct (String.prefix ".csv" (String c s)) eqn:Hp.
      * apply prefix_length in Hp. cbn [String.length] in Hp.
        destruct (IH 3) as (k & Hk). exists (S k).
        rewrite append_nil_l. change (String.length ".csv" - 1) with 3.
        cbn [String.length]. lia.
      * destruct (IH 0) as (k & Hk). exists k. cbn [String.length]. lia.
    + cbn [replace_from]. destruct (IH j) as (k & Hk). exists k.
      cbn [String.length]. lia.
Qed.

Lemma json_file_of_length OUTPUT :
  exists k, String.length (json_file_of OUTPUT) + 4 * k = String.length OUTPUT + 5.
Proof.
  unfold json_file_of, str_replace. rewrite length_append.
  destruct (replace_from_csv_length OUTPUT 0) as (k & Hk).
  exists k. change (String.length ".json") with 5. lia.
Qed.

Lemma json_file_of_neq OUTPUT : json_file_of OUTPUT <> OUTPUT.
Proof.
  intros Heq. destruct (json_file_of_length OUTPUT) as (k & Hk).
  rewrite Heq in Hk. lia.
Qed.

(** X1: the audit file is never the output file, whatever the path
    given: [extract] cannot write over the CSV, and [load] cannot add
    its row to the audit dump.  The audit path is the output path made
    shorter by four characters for each [.csv] removed and longer by the
    five of [.json]. *)
Theorem audit_path_differs_from_output OUTPUT :
  json_file_of OUTPUT <> OUTPUT
  /\ exists k, String.length (json_file_of OUTPUT) + 4 * k = String.length OUTPUT + 5.
Proof. split; [apply json_file_of_neq|apply json_file_of_length]. Qed.

(** ** Whole runs *)

Section RunEffects.
Context `{Externals}.

Lemma extract_by_received json_file net fs :
  extract json_file net fs
  = match received net with
    | Ok data =>
        match open_error json_file with
        | None =>
            (data, <[json_file := json_dumps data]> fs,
             [LogInfo ("Getting data from " +:+ URL);
              LogInfo ("Extracted raw data and saved to " +:+ json_file)])
        | Some err =>
            (data, fs, [LogInfo ("Getting data from " +:+ URL); caught err])
        end
    | Raise e => (JNull, fs, [LogInfo ("Getting data from " +:+ URL); caught e])
    end.
Proof. reflexivity. Qed.

Lemma extract_files json_file net fs :
  files_of (extract json_file net fs)
  = match received net with
    | Ok data => after_audit json_file data fs
    | Raise _ => fs
    end.
Proof.
  rewrite extract_by_received. unfold after_audit.
  destruct (received net) as [data|e]; [|reflexivity].
  destruct (open_error json_file); reflexivity.
Qed.

Lemma extract_result json_file net fs :
  result_of (extract json_file net fs)
  = match received net with Ok data => data | Raise _ => JNull end.
Proof.
  rewrite extract_by_received.
  destruct (received net) as [data|e]; [|reflexivity].
  destruct (open_error json_file); reflexivity.
Qed.

Lemma transform_singleton raw df : transform raw = Ok df -> exists r, df = [r].
Proof.
  rewrite transform_by_paths. intros Ht.
  apply bind_Ok_inv in Ht as (ts & _ & Ht).
  apply bind_Ok_inv in Ht as (lat & _ & Ht).
  apply bind_Ok_inv in Ht as (lon & _ & Ht).
  apply bind_Ok_inv in Ht as (msg & _ & Ht).
  apply bind_Ok_inv in Ht as (t & _ & Ht).
  injection Ht as <-. eauto.
Qed.

Lemma lookup_insert_keeps (fs : files) k v p :
  is_Some (fs !! p) -> is_Some (<[k := v]> fs !! p).
Proof.
  intros Hp. destruct (decide (k = p)) as [->|Hne].
  - rewrite lookup_insert_eq. eauto.
  - rewrite lookup_insert_ne by exact Hne. exact Hp.
Qed.

Lemma after_audit_other json_file data fs p :
  p <> json_file -> after_audit json_file data fs !! p = fs !! p.
Proof.
  intros Hp. unfold after_audit. destruct (open_error json_file); [reflexivity|].
  apply lookup_insert_ne. congruence.
Qed.

Lemma after_audit_keeps json_file data fs p :
  is_Some (fs !! p) -> is_Some (after_audit json_file data fs !! p).
Proof.
  intros Hp. unfold after_audit. destruct (open_error json_file); [exact Hp|].
  apply lookup_insert_keeps. exact Hp.
Qed.

Lemma load_files df path fs :
  fst (load df path fs)
  = <[path := match fs !! path with
              | Some old => old +:+ csv_text df false
              | None => csv_text df true
              end]> fs.
Proof.
  destruct (fs !! path) as [old|] eqn:Hold.
  - apply load_existing. exact Hold.
  - apply load_fresh. exact Hold.
Qed.

(** The files after a run, by what was received. *)
Lemma main_files prog OUTPUT rest net fs :
  files_of (main prog (OUTPUT :: rest) net fs)
  = match received net with
    | Raise _ => fs
    | Ok raw =>
        let fs1 := after_audit (json_file_of OUTPUT) raw fs in
        match raw with
        | JNull => fs1
        | _ => match transform raw, load_raises OUTPUT with
               | Ok df, None => fst (load df OUTPUT fs1)
               | _, _ => fs1
               end
        end
    end.
Proof.
  unfold main. rewrite extract_by_received. unfold after_audit.
  destruct (received net) as [raw|e]; [|reflexivity].
  destruct (open_error (json_file_of OUTPUT));
    destruct raw; try reflexivity;
    destruct (transform _); try reflexivity;
    destruct (load_raises OUTPUT); reflexivity.
Qed.

(** X2: a run whose answer has a status that is no error and a JSON
    body that is not [null] and that the Transformer accepts.  The audit
    path holds the dump of the body when the audit file could be opened,
    and what it held before when it could not: that failure does not end
    the run.  When the output file can be opened the run ends normally
    and the output path holds the header and the rows if the file did not
    exist, the content there was followed by the rows if it did; when it
    cannot, the run ends on the exception and the output path is as it
    was.  No other file changes. *)
Theorem main_successful_run prog OUTPUT rest resp raw df fs :
  raise_for_status resp = Ok tt ->
  json_body resp = Ok raw ->
  raw <> JNull ->
  transform raw = Ok df ->
  result_of (main prog (OUTPUT :: rest) (Ok resp) fs)
  = match load_raises OUTPUT with None => Finished | Some e => Uncaught e end
  /\ files_of (main prog (OUTPUT :: rest) (Ok resp) fs) !! json_file_of OUTPUT
     = match open_error (json_file_of OUTPUT) with
       | None => Some (json_dumps raw)
       | Some _ => fs !! json_file_of OUTPUT
       end
  /\ files_of (main prog (OUTPUT :: rest) (Ok resp) fs) !! OUTPUT
     = match load_raises OUTPUT with
       | None => Some (match fs !! OUTPUT with
                       | Some old => old +:+ csv_text df false
                       | None => csv_text df true
                       end)
       | Some _ => fs !! OUTPUT
       end
  /\ (forall p, p <> OUTPUT -> p <> json_file_of OUTPUT ->
        files_of (main prog (OUTPUT :: rest) (Ok resp) fs) !! p = fs !! p).
Proof.
  intros Hstatus Hbody Hraw Ht.
  assert (Hrec : received (Ok resp) = Ok raw).
  { unfold received. cbn [bind]. rewrite Hstatus. exact Hbody. }
  pose proof (json_file_of_neq OUTPUT) as Hneq.
  split.
  - unfold main. rewrite extract_by_received, Hrec.
    destruct (open_error (json_file_of OUTPUT)); rewrite Ht;
      destruct (load_raises OUTPUT); destruct raw; try reflexivity; congruence.
  - rewrite main_files, Hrec. cbn zeta. rewrite Ht.
    set (fs1 := after_audit (json_file_of OUTPUT) raw fs).
    assert (Hfiles : match raw with
                     | JNull => fs1
                     | _ => match load_raises OUTPUT with
                            | None => fst (load df OUTPUT fs1)
                            | Some _ => fs1
                            end
                     end
                     = match load_raises OUTPUT with
                       | None => fst (load df OUTPUT fs1)
                       | Some _ => fs1
                       end)
      by (destruct raw; try reflexivity; congruence).
    rewrite Hfiles.
    assert (Hout : fs1 !! OUTPUT = fs !! OUTPUT)
      by (apply after_audit_other; congruence).
    assert (Haudit : fs1 !! json_file_of OUTPUT
                     = match open_error (json_file_of OUTPUT) with
                       | None => Some (json_dumps raw)
                       | Some _ => fs !! json_file_of OUTPUT
                       end).
    { unfold fs1, after_audit. destruct (open_error (json_file_of OUTPUT));
        [reflexivity|apply lookup_insert_eq]. }
    destruct (load_raises OUTPUT) as [e|].
    + split; [exact Haudit|]. split; [exact Hout|].
      intros p Hp1 Hp2. apply after_audit_other. exact Hp2.
    + rewrite load_files, Hout. split; [|split].
      * rewrite lookup_insert_ne by congruence. exact Haudit.
      * apply lookup_insert_eq.
      * intros p Hp1 Hp2. rewrite lookup_insert_ne by congruence.
        apply after_audit_other. exact Hp2.
Qed.

(** X3: whatever the command line, the answer and the files, a run
    changes no file other than the output file and the audit file of its
    output path, and it removes no file. *)
Theorem main_changes_two_files_at_most prog args net fs :
  (forall p,
     (forall OUTPUT rest, args = OUTPUT :: rest ->
                          p <> OUTPUT /\ p <> json_file_of OUTPUT) ->
     files_of (main prog args net fs) !! p = fs !! p)
  /\ (forall p, is_Some (fs !! p) -> is_Some (files_of (main prog args net fs) !! p)).
Proof.
  destruct args as [|OUTPUT rest]; [split; intros; [reflexivity|assumption]|].
  rewrite main_files. split.
  - intros p Hp. destruct (Hp OUTPUT rest eq_refl) as [Hp1 Hp2].
    destruct (received net) as [raw|e]; [|reflexivity]. cbn zeta.
    pose proof (after_audit_other (json_file_of OUTPUT) raw fs p Hp2) as Hone.
    destruct raw; try exact Hone;
      (destruct (transform _) as [df|e]; [|exact Hone]);
      (destruct (load_raises OUTPUT); [exact Hone|]);
      rewrite load_files, lookup_insert_ne by congruence; exact Hone.
  - intros p Hp.
    destruct (received net) as [raw|e]; [|exact Hp]. cbn zeta.
    pose proof (after_audit_keeps (json_file_of OUTPUT) raw fs p Hp) as Hone.
    destruct raw; try exact Hone;
      (destruct (transform _) as [df|e]; [|exact Hone]);
      (destruct (load_raises OUTPUT); [exact Hone|]);
      rewrite load_files; apply lookup_insert_keeps; exact Hone.
Qed.

(** The output file after one run, by the record the run adds. *)
Lemma main_output_after prog OUTPUT rest net fs :
  files_of (main prog (OUTPUT :: rest) net fs) !! OUTPUT
  = match written_row OUTPUT net with
    | None => fs !! OUTPUT
    | Some r =>
        Some (match fs !! OUTPUT with
              | Some old => old +:+ record_line r +:+ nl
              | None => header_text +:+ nl +:+ record_line r +:+ nl
              end)
    end.
Proof.
  rewrite main_files. unfold written_row.
  pose proof (json_file_of_neq OUTPUT) as Hneq.
  destruct (received net) as [raw|e]; [|reflexivity]. cbn zeta.
  assert (Hone : after_audit (json_file_of OUTPUT) raw fs !! OUTPUT = fs !! OUTPUT)
    by (apply after_audit_other; congruence).
  assert (Hload : forall df,
            transform raw = Ok df ->
            match load_raises OUTPUT with
            | None => fst (load df OUTPUT (after_audit (json_file_of OUTPUT) raw fs))
            | Some _ => after_audit (json_file_of OUTPUT) raw fs
            end !! OUTPUT
            = match match df, load_raises OUTPUT with
                    | [r], None => Some r
                    | _, _ => None
                    end with
              | None => fs !! OUTPUT
              | Some r =>
                  Some (match fs !! OUTPUT with
                        | Some old => old +:+ record_line r +:+ nl
                        | None => header_text +:+ nl +:+ record_line r +:+ nl
                        end)
              end).
  { intros df Ht. destruct (transform_singleton raw df Ht) as (r & ->).
    destruct (load_raises OUTPUT); [exact Hone|].
    rewrite load_files, lookup_insert_eq, Hone, !csv_text_one.
    destruct (fs !! OUTPUT); [reflexivity|]. rewrite append_assoc. reflexivity. }
  destruct raw; try exact Hone;
    (destruct (transform _) as [df|e]; [apply (Hload df eq_refl)|exact Hone]).
Qed.

Lemma main_runs_cons prog args net nets fs :
  main_runs prog args (net :: nets) fs
  = main_runs prog args nets (files_of (main prog args net fs)).
Proof. reflexivity. Qed.

(** X4: after any number of runs with the same output path, the output
    file holds what it held before the first run, or the header when it
    did not exist, followed by the rows of the runs that succeeded, in
    the order of the runs: the header is written once at most, a run
    that fails leaves no trace in the file, and the file does not exist
    as long as no run has succeeded. *)
Theorem main_runs_output prog OUTPUT rest nets fs :
  main_runs prog (OUTPUT :: rest) nets fs !! OUTPUT
  = match fs !! OUTPUT with
    | Some old => Some (old +:+ data_text (omap (written_row OUTPUT) nets))
    | None =>
        match omap (written_row OUTPUT) nets with
        | [] => None
        | rows => Some (header_text +:+ nl +:+ data_text rows)
        end
    end.
Proof.
  revert fs. induction nets as [|net nets IH]; intros fs.
  - cbn. destruct (fs !! OUTPUT) as [old|]; [|reflexivity].
    rewrite append_empty_r. reflexivity.
  - rewrite main_runs_cons, IH, main_output_after. cbn [omap list_omap].
    destruct (written_row OUTPUT net) as [r|].
    + cbn [data_text fold_right].
      destruct (fs !! OUTPUT) as [old|]; rewrite !append_assoc; reflexivity.
    + reflexivity.
Qed.

(** X5: an answer whose status is from 400 to 599 is reported by the
    handler of HTTP errors, with that status, whatever its body is, even
    a well-formed one: [extract] returns [None] and writes nothing. *)
Theorem extract_reports_http_error json_file resp fs :
  (400 <= status_code resp < 600)%Z ->
  extract json_file (Ok resp) fs
  = (JNull, fs,
     [LogInfo ("Getting data from " +:+ URL);
      LogError "HTTP error occurred: " (Some (HTTPError (status_code resp)))]).
Proof.
  intros Hs. rewrite extract_by_received. unfold received, raise_for_status. cbn [bind].
  replace (400 <=? status_code resp)%Z with true by (symmetry; apply Z.leb_le; lia).
  replace (status_code resp <? 600)%Z with true by (symmetry; apply Z.ltb_lt; lia).
  reflexivity.
Qed.

(** X6: the status counts for nothing else: an answer with any status
    outside 400..599, a redirection or an informational status as well
    as a success, and a JSON body is a successful extraction, which
    returns the body.  The audit file is written and the extraction
    logged as done when the file can be opened; when it cannot, the files
    stay as they were and the exception is logged, by the clause for
    unexpected errors if it is no exception of the request library. *)
Theorem extract_accepts_other_status json_file resp data fs :
  ~ (400 <= status_code resp < 600)%Z ->
  json_body resp = Ok data ->
  extract json_file (Ok resp) fs
  = match open_error json_file with
    | None =>
        (data, <[json_file := json_dumps data]> fs,
         [LogInfo ("Getting data from " +:+ URL);
          LogInfo ("Extracted raw data and saved to " +:+ json_file)])
    | Some err =>
        (data, fs, [LogInfo ("Getting data from " +:+ URL); caught err])
    end
  /\ (forall err, is_RequestException err = false ->
        caught err = LogError "An unexpected error occurred: " (Some err)).
Proof.
  intros Hs Hbody. split.
  - rewrite extract_by_received. unfold received, raise_for_status. cbn [bind].
    destruct (Z.leb_spec 400 (status_code resp)), (Z.ltb_spec (status_code resp) 600);
      cbn [andb bind]; try (rewrite Hbody; reflexivity).
    lia.
  - intros err Hreq. unfold caught. rewrite Hreq.
    destruct err; try reflexivity; discriminate.
Qed.

(** X7: a body that is the JSON value [null] is parsed to [None], the
    very value that stands for a failure: the audit file is written and
    the extraction logged as done (or, when the file cannot be opened,
    the exception logged and nothing written), then [main] reports that
    the extraction failed and exits with status 1, the output file
    untouched. *)
Theorem null_body_counts_as_failure prog OUTPUT rest resp fs :
  raise_for_status resp = Ok tt ->
  json_body resp = Ok JNull ->
  main prog (OUTPUT :: rest) (Ok resp) fs
  = match open_error (json_file_of OUTPUT) with
    | None =>
        (Exit 1,
         <[json_file_of OUTPUT := json_dumps JNull]> fs,
         [LogInfo ("Getting data from " +:+ URL);
          LogInfo ("Extracted raw data and saved to " +:+ json_file_of OUTPUT);
          LogError "Extraction failed. Exiting program." None])
    | Some err =>
        (Exit 1, fs,
         [LogInfo ("Getting data from " +:+ URL); caught err;
          LogError "Extraction failed. Exiting program." None])
    end
  /\ files_of (main prog (OUTPUT :: rest) (Ok resp) fs) !! OUTPUT = fs !! OUTPUT.
Proof.
  intros Hstatus Hbody.
  assert (Hrec : received (Ok resp) = Ok JNull).
  { unfold received. cbn [bind]. rewrite Hstatus. exact Hbody. }
  split.
  - unfold main. rewrite extract_by_received, Hrec.
    destruct (open_error (json_file_of OUTPUT)); reflexivity.
  - rewrite main_files, Hrec. cbn zeta.
    apply after_audit_other. apply not_eq_sym, json_file_of_neq.
Qed.

End RunEffects.

Lemma main_successful_run_witness :
  files_of (@main sample_externals "iss.py" ["out.csv"]
              (Ok (mkResponse 200 (Ok scenario_raw))) ∅) !! "out.csv"
  = Some (header_text +:+ nl +:+ "2021-01-01,10.00,20.00,success" +:+ nl)
  /\ result_of (@main no_archive_externals "iss.py" ["archive.csv/iss.csv"]
                  (Ok (mkResponse 200 (Ok scenario_raw))) ∅) = Finished
  /\ files_of (@main no_archive_externals "iss.py" ["archive.csv/iss.csv"]
                 (Ok (mkResponse 200 (Ok scenario_raw))) ∅) !! "archive/iss.json"
     = None.
Proof.
  split; [|split].
  - destruct (@main_successful_run sample_externals "iss.py" "out.csv" []
                (mkResponse 200 (Ok scenario_raw)) scenario_raw [scenario_row] ∅)
      as (_ & _ & Hout & _).
    + reflexivity.
    + reflexivity.
    + discriminate.
    + reflexivity.
    + rewrite Hout. cbn. rewrite lookup_empty. reflexivity.
  - destruct (@main_successful_run no_archive_externals "iss.py" "archive.csv/iss.csv" []
                (mkResponse 200 (Ok scenario_raw)) scenario_raw [scenario_row] ∅)
      as (Hend & _).
    + reflexivity.
    + reflexivity.
    + discriminate.
    + reflexivity.
    + rewrite Hend. reflexivity.
  - destruct (@main_successful_run no_archive_externals "iss.py" "archive.csv/iss.csv" []
                (mkResponse 200 (Ok scenario_raw)) scenario_raw [scenario_row] ∅)
      as (_ & Haudit & _).
    + reflexivity.
    + reflexivity.
    + discriminate.
    + reflexivity.
    + change "archive/iss.json" with (json_file_of "archive.csv/iss.csv").
      rewrite Haudit. cbn. apply lookup_empty.
Defined.

Lemma main_changes_two_files_at_most_witness :
  files_of (@main sample_externals "iss.py" ["out.csv"]
              (Ok (mkResponse 200 (Ok scenario_raw))) {[ "notes.txt" := "kept" ]})
    !! "notes.txt"
  = Some "kept".
Proof.
  rewrite <- (lookup_singleton_eq (M := gmap string) "notes.txt" "kept").
  apply (@main_changes_two_files_at_most sample_externals "iss.py" ["out.csv"]
           (Ok (mkResponse 200 (Ok scenario_raw))) {[ "notes.txt" := "kept" ]}).
  intros OUTPUT rest Hargs. injection Hargs as <- _. split; discriminate.
Defined.

Lemma extract_reports_http_error_witness :
  @extract sample_externals "out.json" (Ok (mkResponse 404 (Ok scenario_raw))) ∅
  = (JNull, ∅,
     [LogInfo ("Getting data from " +:+ URL);
      LogError "HTTP error occurred: " (Some (HTTPError 404))]).
Proof.
  apply (@extract_reports_http_error sample_externals "out.json"
           (mkResponse 404 (Ok scenario_raw)) ∅).
  cbn. lia.
Defined.

Lemma extract_accepts_other_status_witness :
  result_of (@extract sample_externals "out.json"
               (Ok (mkResponse 300 (Ok scenario_raw))) ∅)
  = scenario_raw
  /\ @extract no_archive_externals "archive/out.json"
       (Ok (mkResponse 200 (Ok scenario_raw))) ∅
     = (scenario_raw, ∅,
        [LogInfo ("Getting data from " +:+ URL);
         LogError "An unexpected error occurred: " (Some OSError)]).
Proof.
  split.
  - destruct (@extract_accepts_other_status sample_externals "out.json"
                (mkResponse 300 (Ok scenario_raw)) scenario_raw ∅) as [Hrun _].
    + cbn. lia.
    + reflexivity.
    + rewrite Hrun. reflexivity.
  - destruct (@extract_accepts_other_status no_archive_externals "archive/out.json"
                (mkResponse 200 (Ok scenario_raw)) scenario_raw ∅) as [Hrun _].
    + cbn. lia.
    + reflexivity.
    + rewrite Hrun. reflexivity.
Defined.

Lemma null_body_counts_as_failure_witness :
  result_of (@main sample_externals "iss.py" ["out.csv"]
               (Ok (mkResponse 200 (Ok JNull))) ∅) = Exit 1
  /\ files_of (@main sample_externals "iss.py" ["out.csv"]
                 (Ok (mkResponse 200 (Ok JNull))) ∅) !! "out.csv" = None.
Proof.
  destruct (@null_body_counts_as_failure sample_externals "iss.py" "out.csv" []
              (mkResponse 200 (Ok JNull)) ∅ eq_refl eq_refl) as [Hrun Hout].
  split; [rewrite Hrun; reflexivity|]. rewrite Hout. apply lookup_empty.
Defined.

(** X8: for an output path that ends with [.csv] and holds no other
    [.csv], the audit path is the path with that ending replaced by
    [.json]. *)
Theorem audit_path_of_csv_name stem :
  occurs ".csv" (stem +:+ ".cs") = false ->
  json_file_of (stem +:+ ".csv") = stem +:+ ".json".
Proof.
  intros Hocc. unfold json_file_of, str_replace.
  rewrite (replace_from_final_csv stem Hocc). reflexivity.
Qed.

(** X9: for an output path that holds no [.csv], whatever its
    extension, the audit path is the whole path followed by [.json]. *)
Theorem audit_path_of_other_name p :
  occurs ".csv" p = false -> json_file_of p = p +:+ ".json".
Proof.
  intros Hocc. unfold json_file_of, str_replace.
  rewrite (replace_from_absent _ _ _ Hocc). reflexivity.
Qed.

Lemma audit_path_of_csv_name_witness :
  json_file_of "data/iss.csv" = "data/iss.json".
Proof. apply (audit_path_of_csv_name "data/iss"). reflexivity. Defined.

Lemma audit_path_of_other_name_witness :
  json_file_of "iss.tsv" = "iss.tsv.json".
Proof. apply (audit_path_of_other_name "iss.tsv"). reflexivity. Defined.

(** * Properties of the event summary *)

Module GithubEventsFacts.
Import GithubEvents.

Lemma event_line_of_event x type name :
  event_of x type name -> event_line x = Ok (summary (type, name)).
Proof.
  intros [Htype Hname]. cbn [get_path] in Hname.
  apply bind_Ok_inv in Hname as (repo & Hrepo & Hname).
  apply bind_Ok_inv in Hname as (n & Hn & Heq). injection Heq as ->.
  unfold event_line. rewrite Htype. cbn [bind concat_str]. rewrite Hrepo. cbn [bind].
  rewrite Hn. cbn [bind concat_str]. unfold summary. cbn [fst snd].
  rewrite append_assoc. reflexivity.
Qed.

(** X10: a line is printed for an event exactly when the event holds a
    string under [type] and a string under [repo], [name]; the line is
    then the type, [ :: ] and the name.  Any other item raises. *)
Theorem event_line_iff x line :
  event_line x = Ok line
  <-> exists type name, event_of x type name /\ line = summary (type, name).
Proof.
  split.
  - unfold event_line. intros Hl.
    apply bind_Ok_inv in Hl as (type & Htype & Hl).
    apply bind_Ok_inv in Hl as (head & Hhead & Hl).
    apply bind_Ok_inv in Hl as (repo & Hrepo & Hl).
    apply bind_Ok_inv in Hl as (name & Hname & Hl).
    destruct type as [| | |t| |]; try discriminate. cbn [concat_str] in Hhead.
    injection Hhead as <-.
    destruct name as [| | |n| |]; try discriminate. cbn [concat_str] in Hl.
    injection Hl as <-.
    exists t, n. split.
    + split; [exact Htype|]. cbn [get_path]. rewrite Hrepo. cbn [bind].
      rewrite Hname. reflexivity.
    + unfold summary. cbn [fst snd]. rewrite append_assoc. reflexivity.
  - intros (type & name & Hev & ->). apply event_line_of_event. exact Hev.
Qed.

Lemma print_events_length xs : length (fst (print_events xs)) <= length xs.
Proof.
  induction xs as [|x xs IH]; [cbn; lia|]. cbn [print_events].
  destruct (event_line x) as [line|e]; [|cbn; lia].
  destruct (print_events xs) as [out o]. cbn in *. lia.
Qed.

Lemma print_events_all xs es :
  Forall2 (fun x e => event_of x (fst e) (snd e)) xs es ->
  print_events xs = (map summary es, Finished).
Proof.
  induction 1 as [|x [type name] xs es Hx _ IH]; [reflexivity|].
  cbn [print_events]. rewrite (event_line_of_event x type name Hx), IH. reflexivity.
Qed.

Lemma print_events_stop good es bad rest e :
  Forall2 (fun x e => event_of x (fst e) (snd e)) good es ->
  event_line bad = Raise e ->
  print_events (good ++ bad :: rest) = (map summary es, Uncaught e).
Proof.
  intros Hgood Hbad. induction Hgood as [|x [type name] xs es Hx _ IH].
  - cbn [app print_events]. rewrite Hbad. reflexivity.
  - cbn [app print_events]. rewrite (event_line_of_event x type name Hx), IH.
    reflexivity.
Qed.

Lemma first_five_length h r xs : first_five h r = Ok xs -> length xs <= 5.
Proof.
  destruct r; cbn [first_five]; intros Hr; try discriminate; injection Hr as <-.
  - rewrite length_map, length_take. lia.
  - rewrite length_take. lia.
Qed.

(** X11: whatever the environment and the network do, the script
    prints first the url of the events of the user named by
    [GITHUB_USER], with [None] for a name when the variable is not set,
    and after it five lines at most; what it does depends on the network
    through the answer to that url only. *)
Theorem github_events_prints_url_first h GHUSER net :
  (exists events,
     fst (github_events h GHUSER net) = url GHUSER :: events /\ length events <= 5)
  /\ url None = "https://api.github.com/users/None/events"
  /\ (forall net', net' (url GHUSER) = net (url GHUSER) ->
        github_events h GHUSER net' = github_events h GHUSER net).
Proof.
  split; [|split; [reflexivity|]].
  - unfold github_events. cbn zeta.
    destruct (do answer <- net (url GHUSER); do r <- json_body answer; first_five h r)
      as [xs|e] eqn:Hev.
    + pose proof (print_events_length xs) as Hlen.
      assert (Hfive : length xs <= 5).
      { apply bind_Ok_inv in Hev as (answer & _ & Hev).
        apply bind_Ok_inv in Hev as (r & _ & Hev).
        apply (first_five_length h r xs Hev). }
      destruct (print_events xs) as [out o]. exists out. cbn in *. split; [reflexivity|lia].
    + exists []. cbn. split; [reflexivity|lia].
  - intros net' Hsame. unfold github_events. cbn zeta. rewrite Hsame. reflexivity.
Qed.

(** X12: when the answer is a JSON array whose first five items (all
    of them, when they are fewer) are events, the script prints the url
    and the summary of each of these events, in order, and ends
    normally; the items after the fifth are not looked at. *)
Theorem github_events_summary h GHUSER net answer items es :
  net (url GHUSER) = Ok answer ->
  json_body answer = Ok (JArr items) ->
  Forall2 (fun x e => event_of x (fst e) (snd e)) (take 5 items) es ->
  github_events h GHUSER net = (url GHUSER :: map summary es, Finished)
  /\ length es = Nat.min 5 (length items).
Proof.
  intros Hnet Hbody Hev. split.
  - unfold github_events. cbn zeta. rewrite Hnet. cbn [bind]. rewrite Hbody.
    cbn [bind first_five]. rewrite (print_events_all _ _ Hev). reflexivity.
  - rewrite <- (Forall2_length _ _ _ Hev). apply length_take.
Qed.

(** X13: when one of the first five items of the array is not an
    event, the script prints the url and the summaries of the events
    before that item, then ends on the exception the item raises;
    nothing is printed for the items after it. *)
Theorem github_events_stops_at_bad_item h GHUSER net answer items good es bad rest e :
  net (url GHUSER) = Ok answer ->
  json_body answer = Ok (JArr items) ->
  take 5 items = good ++ bad :: rest ->
  Forall2 (fun x e => event_of x (fst e) (snd e)) good es ->
  event_line bad = Raise e ->
  github_events h GHUSER net = (url GHUSER :: map summary es, Uncaught e)
  /\ exit_status (snd (github_events h GHUSER net)) = 1%Z.
Proof.
  intros Hnet Hbody Htake Hgood Hbad.
  assert (Hrun : github_events h GHUSER net = (url GHUSER :: map summary es, Uncaught e)).
  { unfold github_events. cbn zeta. rewrite Hnet. cbn [bind]. rewrite Hbody.
    cbn [bind first_five]. rewrite Htake, (print_events_stop _ _ _ _ _ Hgood Hbad).
    reflexivity. }
  split; [exact Hrun|]. rewrite Hrun. reflexivity.
Qed.

(** X14: an event line is printed only when the answer is a JSON array
    that is not empty.  An answer that is a JSON object, as the API gives
    for an error, ends the script on the exception of the slice, with
    the url alone printed. *)
Theorem github_events_needs_array h GHUSER net :
  (fst (github_events h GHUSER net) <> [url GHUSER] ->
   exists answer items,
     net (url GHUSER) = Ok answer /\ json_body answer = Ok (JArr items) /\ items <> [])
  /\ (forall answer members,
        net (url GHUSER) = Ok answer ->
        json_body answer = Ok (JObj members) ->
        github_events h GHUSER net
        = ([url GHUSER],
           Uncaught (if h then KeyError "slice(None, 5, None)" else TypeError))).
Proof.
  split.
  - unfold github_events. cbn zeta.
    destruct (net (url GHUSER)) as [answer|e] eqn:Hnet; cbn [bind];
      [|intros Hc; contradiction].
    destruct (json_body answer) as [r|e] eqn:Hbody; cbn [bind];
      [|intros Hc; contradiction].
    destruct r as [| | |s|items|members]; cbn [first_five fst];
      try (intros Hc; contradiction).
    + destruct s as [|c s]; [intros Hc; contradiction|].
      cbn. intros Hc. contradiction.
    + destruct items as [|x items]; [intros Hc; contradiction|].
      intros _. exists answer, (x :: items).
      split; [reflexivity|]. split; [exact Hbody|discriminate].
  - intros answer members Hnet Hbody. unfold github_events. cbn zeta.
    rewrite Hnet. cbn [bind]. rewrite Hbody. reflexivity.
Qed.

Lemma github_events_summary_witness :
  github_events false (Some "octocat")
    (fun _ => Ok (mkResponse 200 (Ok (JArr [push_event; push_event]))))
  = ([ "https://api.github.com/users/octocat/events";
       "PushEvent :: octocat/hello"; "PushEvent :: octocat/hello" ],
     Finished).
Proof.
  apply (github_events_summary false (Some "octocat")
           (fun _ => Ok (mkResponse 200 (Ok (JArr [push_event; push_event]))))
           (mkResponse 200 (Ok (JArr [push_event; push_event])))
           [push_event; push_event]
           [("PushEvent", "octocat/hello"); ("PushEvent", "octocat/hello")]).
  - reflexivity.
  - reflexivity.
  - repeat constructor.
Defined.

Lemma github_events_stops_at_bad_item_witness :
  github_events true None
    (fun _ => Ok (mkResponse 200 (Ok (JArr [push_event; nameless_event; push_event]))))
  = ([ "https://api.github.com/users/None/events"; "PushEvent :: octocat/hello" ],
     Uncaught (KeyError "name")).
Proof.
  apply (github_events_stops_at_bad_item true None
           (fun _ => Ok (mkResponse 200 (Ok (JArr [push_event; nameless_event; push_event]))))
           (mkResponse 200 (Ok (JArr [push_event; nameless_event; push_event])))
           [push_event; nameless_event; push_event]
           [push_event] [("PushEvent", "octocat/hello")] nameless_event [push_event]
           (KeyError "name")).
  - reflexivity.
  - reflexivity.
  - reflexivity.
  - repeat constructor.
  - reflexivity.
Defined.

Lemma github_events_needs_array_witness :
  github_events false (Some "octocat")
    (fun _ => Ok (mkResponse 403 (Ok (JObj [("message", JStr "rate limit exceeded")]))))
  = (["https://api.github.com/users/octocat/events"], Uncaught TypeError).
Proof.
  destruct (github_events_needs_array false (Some "octocat")
              (fun _ => Ok (mkResponse 403
                              (Ok (JObj [("message", JStr "rate limit exceeded")])))))
    as [_ Hobject].
  apply (Hobject (mkResponse 403 (Ok (JObj [("message", JStr "rate limit exceeded")])))
           [("message", JStr "rate limit exceeded")]);
    reflexivity.
Defined.

Lemma event_line_iff_witness :
  exists type name,
    event_of push_event type name /\ "PushEvent :: octocat/hello" = summary (type, name).
Proof.
  apply (proj1 (event_line_iff push_event "PushEvent :: octocat/hello")).
  reflexivity.
Defined.

Lemma github_events_prints_url_first_witness :
  github_events false None (fun u => if String.eqb u (url None)
                                     then Raise ConnectionError else Raise Timeout)
  = github_events false None (fun _ => Raise ConnectionError).
Proof.
  apply (github_events_prints_url_first false None (fun _ => Raise ConnectionError)).
  reflexivity.
Defined.

End GithubEventsFacts.
